(** * Price extraction of the Price Drop Notifier (scraper_utils.py)

    A shallow embedding of [backend/layers/utils/scraper_utils.py] and of the
    library calls it makes (str methods, [re], [float], [json], [urlparse],
    BeautifulSoup), of the pages and the escaping of
    [backend/layers/utils/email_utils.py], and of the checks the subscribe
    and scraper handlers make around [scrape_product], followed by the
    properties of the extraction pipeline and of its callers. *)

From Stdlib Require Import ZArith NArith QArith Lia List String Ascii Bool.
From stdpp Require Import gmap list strings.

Set Default Proof Using "Type".
#[local] Set Warnings "-register-all".
Local Open Scope N_scope.

(* ================================================================== *)
(** ** Python strings *)
(* ================================================================== *)

(** A Python [str] is a sequence of Unicode code points. *)
Definition pychar := N.
Definition pystr := list pychar.

(** Source literals are UTF-8 text: [py] decodes the bytes of a literal
    into code points. *)
Fixpoint utf8_decode (bs : list N) : pystr :=
  match bs with
  | [] => []
  | b :: r =>
      if b <? 128 then b :: utf8_decode r
      else if b <? 224 then
        match r with
        | c1 :: r' => ((b - 192) * 64 + (c1 - 128)) :: utf8_decode r'
        | _ => []
        end
      else if b <? 240 then
        match r with
        | c1 :: c2 :: r' =>
            ((b - 224) * 4096 + (c1 - 128) * 64 + (c2 - 128)) :: utf8_decode r'
        | _ => []
        end
      else
        match r with
        | c1 :: c2 :: c3 :: r' =>
            ((b - 240) * 262144 + (c1 - 128) * 4096 + (c2 - 128) * 64 + (c3 - 128))
              :: utf8_decode r'
        | _ => []
        end
  end.

Definition py (s : string) : pystr :=
  utf8_decode (map N_of_ascii (list_ascii_of_string s)).

(** [str.isspace] per character (the set [str.split], [str.strip] and the
    regex class [\s] share). *)
Definition isspace (c : pychar) : bool :=
  ((9 <=? c) && (c <=? 13)) || ((28 <=? c) && (c <=? 32))
  || (c =? 133) || (c =? 160) || (c =? 5760)
  || ((8192 <=? c) && (c <=? 8202))
  || (c =? 8232) || (c =? 8233) || (c =? 8239) || (c =? 8287) || (c =? 12288).

(** Zero digits of the decimal-digit blocks (category Nd) of the Unicode
    database; each block holds the digits 0 to 9 in order. *)
Definition decimal_zeros : list N :=
  [48; 1632; 1776; 1984; 2406; 2534; 2662; 2790; 2918; 3046; 3174; 3302;
   3430; 3558; 3664; 3792; 3872; 4160; 4240; 6112; 6160; 6470; 6608; 6784;
   6800; 6992; 7088; 7232; 7248; 42528; 43216; 43264; 43472; 43504; 43600;
   44016; 65296; 66720; 68912; 69734; 69872; 69942; 70096; 70384; 70736;
   70864; 71248; 71360; 71472; 71904; 72016; 72784; 73040; 73120; 92768;
   92864; 93008; 120782; 120792; 120802; 120812; 120822; 123200; 123632;
   125264; 130032].

(** The decimal value of a character, when it is a decimal digit. *)
Definition decimal_value (c : pychar) : option N :=
  (fun z => c - z) <$> List.find (fun z => (z <=? c) && (c <? z + 10)) decimal_zeros.

Definition isdecimal (c : pychar) : bool :=
  match decimal_value c with Some _ => true | None => false end.

(** [s.lstrip()], [s.rstrip()], [s.strip()] *)
Fixpoint lstrip (s : pystr) : pystr :=
  match s with
  | c :: r => if isspace c then lstrip r else s
  | [] => []
  end.

Definition rstrip (s : pystr) : pystr := rev (lstrip (rev s)).
Definition strip (s : pystr) : pystr := rstrip (lstrip s).

(** [s.rstrip(chars)] for a one-character [chars] *)
Fixpoint lstrip_char (x : pychar) (s : pystr) : pystr :=
  match s with
  | c :: r => if c =? x then lstrip_char x r else s
  | [] => []
  end.

Definition rstrip_char (x : pychar) (s : pystr) : pystr :=
  rev (lstrip_char x (rev s)).

(** [s.split()]: the maximal runs of non-space characters. [cur] is the
    run being read, reversed. *)
Fixpoint split_ws_aux (cur : pystr) (s : pystr) : list pystr :=
  match s with
  | [] => match cur with [] => [] | _ => [rev cur] end
  | c :: r =>
      if isspace c
      then match cur with
           | [] => split_ws_aux [] r
           | _ => rev cur :: split_ws_aux [] r
           end
      else split_ws_aux (c :: cur) r
  end.

Definition split_ws (s : pystr) : list pystr := split_ws_aux [] s.

(** [sep.join(parts)] *)
Fixpoint join (sep : pystr) (parts : list pystr) : pystr :=
  match parts with
  | [] => []
  | [p] => p
  | p :: rest => p ++ sep ++ join sep rest
  end.

(** [s.replace(old, new)] for a one-character [old] *)
Definition replace_char (old : pychar) (new : pystr) (s : pystr) : pystr :=
  flat_map (fun c => if c =? old then new else [c]) s.

(** [s.count(c)] for a one-character [c] *)
Definition count_char (x : pychar) (s : pystr) : nat :=
  length (filter (fun c => c = x) s).

(** [s.startswith(prefix)] *)
Fixpoint startswith (prefix s : pystr) : bool :=
  match prefix, s with
  | [], _ => true
  | p :: prefix', c :: s' => (p =? c) && startswith prefix' s'
  | _ :: _, [] => false
  end.

(** [needle in hay] *)
Fixpoint contains (needle hay : pystr) : bool :=
  startswith needle hay ||
  match hay with
  | [] => false
  | _ :: hay' => contains needle hay'
  end.

(** [s.lower()], on the Basic Latin and Latin-1 letters; the case mappings
    of other scripts are left as they are. *)
Definition lower_char (c : pychar) : pychar :=
  if ((65 <=? c) && (c <=? 90))
     || ((192 <=? c) && (c <=? 222) && negb (c =? 215))
  then c + 32 else c.

Definition lower (s : pystr) : pystr := map lower_char s.

(** Code points used below. *)
Definition ch_space : pychar := 32.
Definition ch_dollar : pychar := 36.
Definition ch_comma : pychar := 44.
Definition ch_dot : pychar := 46.
Definition ch_slash : pychar := 47.
Definition ch_pound : pychar := 163.
Definition ch_euro : pychar := 8364.

(* ================================================================== *)
(** ** Python floats *)
(* ================================================================== *)

(** A float is kept as the decimal number its literal denotes,
    [m * 10 ^ e], or as one of the special values. The rounding of
    [float] to binary64 and the sign of zero are not modelled: the code
    only compares prices with [0] and [1_000_000], which rounding
    preserves for the decimals the price patterns capture. *)
Inductive pyfloat :=
| Finite (m e : Z)
| Inf (negative : bool)
| NaN.

Definition float_Q (m e : Z) : Q :=
  match e with
  | Z0 => inject_Z m
  | Zpos p => inject_Z (m * Z.pow 10 (Zpos p))
  | Zneg p => Qmake m (Pos.pow 10 p)
  end.

(** [x < y], [x <= y]; comparisons with NaN are false. *)
Definition float_ltb (x y : pyfloat) : bool :=
  match x, y with
  | NaN, _ | _, NaN => false
  | Inf true, Inf true => false
  | Inf true, _ => true
  | _, Inf true => false
  | Inf false, _ => false
  | _, Inf false => true
  | Finite m e, Finite m' e' =>
      match Qcompare (float_Q m e) (float_Q m' e') with Lt => true | _ => false end
  end.

Definition float_leb (x y : pyfloat) : bool :=
  match x, y with
  | NaN, _ | _, NaN => false
  | Inf true, _ => true
  | _, Inf false => true
  | Inf false, _ => false
  | _, Inf true => false
  | Finite m e, Finite m' e' =>
      match Qcompare (float_Q m e) (float_Q m' e') with Gt => false | _ => true end
  end.

(** [bool(x)]: a float is falsy when it is zero. *)
Definition float_truthy (x : pyfloat) : bool :=
  match x with
  | Finite m _ => negb (m =? 0)%Z
  | _ => true
  end.

Definition float_zero : pyfloat := Finite 0 0.

Arguments float_ltb : simpl never.
Arguments float_leb : simpl never.
Arguments float_truthy : simpl never.

(** *** [float(s)] for a string [s]; [None] stands for [ValueError]. *)

Definition is_ascii_digit (c : pychar) : bool := (48 <=? c) && (c <=? 57).
Definition is_ascii_space (c : pychar) : bool := ((9 <=? c) && (c <=? 13)) || (c =? 32).

(** Non-ASCII spaces become a blank and non-ASCII decimal digits the
    ASCII digit of the same value; any other non-ASCII character becomes
    a question mark, on which the parse fails. *)
Definition to_ascii_number (c : pychar) : pychar :=
  if c <? 127 then c
  else if isspace c then 32
  else match decimal_value c with Some d => 48 + d | None => 63 end.

Fixpoint lstrip_ascii (s : pystr) : pystr :=
  match s with
  | c :: r => if is_ascii_space c then lstrip_ascii r else s
  | [] => []
  end.

(** Underscores are accepted between two digits only, and dropped. *)
Fixpoint drop_underscores (prev : pychar) (s : pystr) : option pystr :=
  match s with
  | [] => if prev =? 95 then None else Some []
  | c :: r =>
      if c =? 95
      then if is_ascii_digit prev then drop_underscores c r else None
      else if (prev =? 95) && negb (is_ascii_digit c) then None
      else cons c <$> drop_underscores c r
  end.

(** Reads a run of ASCII digits: the number read so far extended by the
    digits, how many digits were read, and the rest. *)
Fixpoint take_digits (s : pystr) (acc : Z) (n : nat) : Z * nat * pystr :=
  match s with
  | c :: r =>
      if is_ascii_digit c
      then take_digits r (10 * acc + Z.of_N (c - 48))%Z (S n)
      else (acc, n, s)
  | [] => (acc, n, [])
  end.

(** An optional fraction: a dot and a run of digits, read on to the
    digits [ip] before the dot. *)
Definition take_fraction (s : pystr) (ip : Z) : Z * nat * pystr :=
  match s with
  | c :: r => if c =? 46 then take_digits r ip 0 else (ip, 0%nat, s)
  | [] => (ip, 0%nat, s)
  end.

Definition take_sign (s : pystr) : bool * pystr :=
  match s with
  | c :: r => if c =? 45 then (true, r) else if c =? 43 then (false, r) else (false, s)
  | [] => (false, [])
  end.

Definition signed (negative : bool) (z : Z) : Z := if negative then (- z)%Z else z.

Definition lower_ascii (s : pystr) : pystr :=
  map (fun c => if (65 <=? c) && (c <=? 90) then c + 32 else c) s.

Definition parse_float (s : pystr) : option pyfloat :=
  let '(neg, s1) := take_sign s in
  let word := lower_ascii s1 in
  if bool_decide (word = py "inf") || bool_decide (word = py "infinity") then Some (Inf neg)
  else if bool_decide (word = py "nan") then Some NaN
  else
    let '(ip, ni, s2) := take_digits s1 0 0 in
    let '(m, nf, s3) := take_fraction s2 ip in
    if (ni + nf =? 0)%nat then None
    else
      match s3 with
      | [] => Some (Finite (signed neg m) (- Z.of_nat nf))
      | c :: r =>
          if (c =? 101) || (c =? 69)
          then
            let '(eneg, r1) := take_sign r in
            let '(ev, ne, r2) := take_digits r1 0 0 in
            match ne, r2 with
            | S _, [] => Some (Finite (signed neg m) (signed eneg ev - Z.of_nat nf))
            | _, _ => None
            end
          else None
      end.

Definition float_of_str (s : pystr) : option pyfloat :=
  let s := map to_ascii_number s in
  let s := rev (lstrip_ascii (rev (lstrip_ascii s))) in
  s' ← drop_underscores 0 s;
  parse_float s'.

(* ================================================================== *)
(** ** Regular expressions ([re.search]) *)
(* ================================================================== *)

(** The fragment of [re] the price patterns are written in. Quantifiers
    are greedy and matching backtracks, as in [re]. *)
Inductive regex :=
| Empty
| Chr (c : pychar)
| Digit                          (* \d *)
| Space                          (* \s *)
| OneOf (cs : list pychar)       (* [...] *)
| Cat (r1 r2 : regex)
| Rep (lo hi : nat) (r : regex)  (* r{lo,hi} *)
| Star (r : regex)               (* r* *)
| Opt (r : regex).               (* r? *)

(** A matcher takes the text and a continuation for the rest of the
    pattern; a failure of the continuation makes the matcher try its next
    alternative. *)
Definition matcher (R : Type) := pystr -> (pystr -> option R) -> option R.

(** [body*]: as many rounds of [body] as match, then one fewer, and so
    on; a round that consumes nothing ends the loop. *)
Fixpoint star_loop {R : Type} (body : matcher R) (k : pystr -> option R)
    (fuel : nat) (s : pystr) : option R :=
  match fuel with
  | O => k s
  | S fuel' =>
      match body s (fun s1 =>
              if (length s1 <? length s)%nat then star_loop body k fuel' s1 else None) with
      | Some x => Some x
      | None => k s
      end
  end.

(** [body{lo,hi}] *)
Fixpoint rep_loop {R : Type} (body : matcher R) (k : pystr -> option R)
    (lo hi : nat) (s : pystr) : option R :=
  match hi with
  | O => match lo with O => k s | S _ => None end
  | S hi' =>
      match body s (fun s1 => rep_loop body k (pred lo) hi' s1) with
      | Some x => Some x
      | None => match lo with O => k s | S _ => None end
      end
  end.

(** [rmatch r s k] matches [r] at the start of [s] and hands the rest to
    [k]. *)
Fixpoint rmatch {R : Type} (r : regex) (s : pystr) (k : pystr -> option R) : option R :=
  match r with
  | Empty => k s
  | Chr c =>
      match s with
      | x :: s' => if x =? c then k s' else None
      | [] => None
      end
  | Digit =>
      match s with
      | x :: s' => if isdecimal x then k s' else None
      | [] => None
      end
  | Space =>
      match s with
      | x :: s' => if isspace x then k s' else None
      | [] => None
      end
  | OneOf cs =>
      match s with
      | x :: s' => if existsb (N.eqb x) cs then k s' else None
      | [] => None
      end
  | Cat r1 r2 => rmatch r1 s (fun s1 => rmatch r2 s1 k)
  | Opt r1 =>
      match rmatch r1 s k with
      | Some x => Some x
      | None => k s
      end
  | Star r1 => star_loop (rmatch r1) k (length s) s
  | Rep lo hi r1 => rep_loop (rmatch r1) k lo hi s
  end.

(** A pattern with one capturing group: [before ( captured ) after]. *)
Record pattern := Pattern { before : regex; captured : regex; after : regex }.

(** A match of the pattern at the start of [s]: the text of group 1. *)
Definition match_at (p : pattern) (s : pystr) : option pystr :=
  rmatch (before p) s (fun s1 =>
    rmatch (captured p) s1 (fun s2 =>
      rmatch (after p) s2 (fun _ =>
        Some (take (length s1 - length s2) s1)))).

(** [re.search(p, s)]: the leftmost match; the result is
    [match.group(1)]. *)
Fixpoint re_search (p : pattern) (s : pystr) : option pystr :=
  match match_at p s with
  | Some g => Some g
  | None =>
      match s with
      | [] => None
      | _ :: s' => re_search p s'
      end
  end.

Fixpoint lit (s : pystr) : regex :=
  match s with
  | [] => Empty
  | c :: r => Cat (Chr c) (lit r)
  end.

(* ================================================================== *)
(** ** scraper_utils.py: the price text parser *)
(* ================================================================== *)

(** [\d{1,6}(?:,\d{3})*(?:\.\d{2})?] *)
Definition re_amount : regex :=
  Cat (Rep 1 6 Digit)
      (Cat (Star (Cat (Chr ch_comma) (Rep 3 3 Digit)))
           (Opt (Cat (Chr ch_dot) (Rep 2 2 Digit)))).

(** [\d{1,6}(?:[.,]\d{3})*(?:[.,]\d{2})?] *)
Definition re_amount_euro : regex :=
  Cat (Rep 1 6 Digit)
      (Cat (Star (Cat (OneOf [ch_dot; ch_comma]) (Rep 3 3 Digit)))
           (Opt (Cat (OneOf [ch_dot; ch_comma]) (Rep 2 2 Digit)))).

(** [\d{1,6}(?:,\d{3})*\.\d{2}] *)
Definition re_amount_bare : regex :=
  Cat (Rep 1 6 Digit)
      (Cat (Star (Cat (Chr ch_comma) (Rep 3 3 Digit)))
           (Cat (Chr ch_dot) (Rep 2 2 Digit))).

Definition _PRICE_PATTERNS : list pattern :=
  [ Pattern (Cat (Chr ch_dollar) (Star Space)) re_amount Empty;
    Pattern Empty re_amount (Cat (Star Space) (lit (py "USD")));
    Pattern (Cat (lit (py "USD")) (Star Space)) re_amount Empty;
    Pattern (Cat (Chr ch_pound) (Star Space)) re_amount Empty;
    Pattern (Cat (Chr ch_euro) (Star Space)) re_amount_euro Empty;
    Pattern Empty re_amount_bare Empty ].

(** The loop over the patterns of [_extract_price_from_text]. *)
Fixpoint first_price (patterns : list pattern) (text : pystr) : option pyfloat :=
  match patterns with
  | [] => None
  | p :: rest =>
      match re_search p text with
      | Some g =>
          let raw := replace_char ch_comma [] g in
          let raw :=
            if (1 <? count_char ch_dot raw)%nat
            then replace_char ch_comma [ch_dot] (replace_char ch_dot [] raw)
            else raw in
          match float_of_str raw with
          | Some price => Some price
          | None => first_price rest text
          end
      | None => first_price rest text
      end
  end.

Definition _extract_price_from_text (text : pystr) : option pyfloat :=
  match text with
  | [] => None
  | _ => first_price _PRICE_PATTERNS (join [ch_space] (split_ws text))
  end.

Definition _detect_currency (text : pystr) : pystr :=
  if contains [ch_pound] text then py "GBP"
  else if contains [ch_euro] text then py "EUR"
  else py "USD".

(* ================================================================== *)
(** ** Exceptions *)
(* ================================================================== *)

Inductive pyexn :=
| ValueError
| JSONDecodeError      (* a subclass of ValueError *)
| AttributeError
| IndexError.

(** The outcome of a call that may raise. *)
Inductive exc (A : Type) :=
| Ok (a : A)
| Raise (e : pyexn).
Arguments Ok {A} a.
Arguments Raise {A} e.

#[export] Instance exc_ret : MRet exc := fun A a => Ok a.
#[export] Instance exc_bind : MBind exc := fun A B f x =>
  match x with
  | Ok a => f a
  | Raise e => Raise e
  end.

(* ================================================================== *)
(** ** JSON values and [json.loads] *)
(* ================================================================== *)

(** The Python values [json.loads] builds. A [dict] is kept as the list
    of its items in insertion order, with distinct keys. *)
Inductive json :=
| JNull
| JBool (b : bool)
| JInt (z : Z)
| JFloat (f : pyfloat)
| JStr (s : pystr)
| JList (l : list json)
| JObj (items : list (pystr * json)).

(** [d[key] = v] *)
Fixpoint dict_set (key : pystr) (v : json) (items : list (pystr * json))
  : list (pystr * json) :=
  match items with
  | [] => [(key, v)]
  | (k, w) :: rest =>
      if bool_decide (k = key) then (k, v) :: rest
      else (k, w) :: dict_set key v rest
  end.

Fixpoint dict_lookup (key : pystr) (items : list (pystr * json)) : option json :=
  match items with
  | [] => None
  | (k, w) :: rest => if bool_decide (k = key) then Some w else dict_lookup key rest
  end.

(** [bool(v)] *)
Definition truthy (v : json) : bool :=
  match v with
  | JNull => false
  | JBool b => b
  | JInt z => negb (z =? 0)%Z
  | JFloat f => float_truthy f
  | JStr s => match s with [] => false | _ => true end
  | JList l => match l with [] => false | _ => true end
  | JObj d => match d with [] => false | _ => true end
  end.

(** [v == s] and [v != s] for a string [s] *)
Definition is_str (v : json) (s : pystr) : bool :=
  match v with
  | JStr s' => bool_decide (s' = s)
  | _ => false
  end.

(** [a or b] *)
Definition py_or (a b : json) : json := if truthy a then a else b.

(** [v.get(key)] and [v.get(key, default)]: only a dict has [get]. *)
Definition get_default (v : json) (key : pystr) (default : json) : exc json :=
  match v with
  | JObj d => Ok (match dict_lookup key d with Some w => w | None => default end)
  | _ => Raise AttributeError
  end.

Definition get (v : json) (key : pystr) : exc json := get_default v key JNull.

(** [l[0]] on a list *)
Definition first_item (l : list json) : exc json :=
  match l with
  | x :: _ => Ok x
  | [] => Raise IndexError
  end.

(** *** The decoder *)

Definition json_ws (c : pychar) : bool :=
  (c =? 32) || (c =? 9) || (c =? 10) || (c =? 13).

Fixpoint skip_ws (s : pystr) : pystr :=
  match s with
  | c :: r => if json_ws c then skip_ws r else s
  | [] => []
  end.

Definition hex_value (c : pychar) : option N :=
  if is_ascii_digit c then Some (c - 48)
  else if (97 <=? c) && (c <=? 102) then Some (c - 87)
  else if (65 <=? c) && (c <=? 70) then Some (c - 55)
  else None.

(** Four hexadecimal digits. *)
Definition hex4 (s : pystr) : option (N * pystr) :=
  match s with
  | a :: b :: c :: d :: r =>
      a ← hex_value a; b ← hex_value b; c ← hex_value c; d ← hex_value d;
      Some (a * 4096 + b * 256 + c * 16 + d, r)
  | _ => None
  end.

(** The body of a string literal, after its opening quote (strict mode:
    control characters are refused). [acc] is the text read, reversed. *)
Fixpoint scanstring (s : pystr) (acc : pystr) : option (pystr * pystr) :=
  match s with
  | [] => None
  | 34 :: r => Some (rev acc, r)
  | 92 :: e :: r =>
      let simple (c : pychar) := Some c in
      if e =? 117 then
        match r with
        | a :: b :: c :: d :: r1 =>
            match hex4 (a :: b :: c :: d :: []) with
            | Some (u, _) =>
                match r1 with
                | 92 :: 117 :: a2 :: b2 :: c2 :: d2 :: r2 =>
                    match hex4 (a2 :: b2 :: c2 :: d2 :: []) with
                    | Some (u2, _) =>
                        if (55296 <=? u) && (u <=? 56319) && (56320 <=? u2) && (u2 <=? 57343)
                        then scanstring r2 ((65536 + (u - 55296) * 1024 + (u2 - 56320)) :: acc)
                        else scanstring r1 (u :: acc)
                    | None => scanstring r1 (u :: acc)
                    end
                | _ => scanstring r1 (u :: acc)
                end
            | None => None
            end
        | _ => None
        end
      else
        match (if e =? 34 then simple 34 else if e =? 92 then simple 92
               else if e =? 47 then simple 47 else if e =? 98 then simple 8
               else if e =? 102 then simple 12 else if e =? 110 then simple 10
               else if e =? 114 then simple 13 else if e =? 116 then simple 9
               else None) with
        | Some c => scanstring r (c :: acc)
        | None => None
        end
  | c :: r => if c <? 32 then None else if c =? 92 then None else scanstring r (c :: acc)
  end.

(** A number literal: an optional minus sign, [0] or a run of ASCII digits
    that does not start with [0], then an optional fraction (a dot and
    digits) and an optional exponent; it is an [int] when it has neither
    fraction nor exponent. *)
Definition scan_number (s : pystr) : option (json * pystr) :=
  let '(neg, s1) := match s with 45 :: r => (true, r) | _ => (false, s) end in
  match s1 with
  | [] => None
  | d :: r =>
      if negb (is_ascii_digit d) then None
      else
        let '(ip, s2) :=
          if d =? 48 then (0%Z, r)
          else let '(v, _, r') := take_digits s1 0 0 in (v, r') in
        let '(m, nf, s3) :=
          match s2 with
          | 46 :: f :: r' =>
              if is_ascii_digit f then take_digits (f :: r') ip 0 else (ip, 0%nat, s2)
          | _ => (ip, 0%nat, s2)
          end in
        let '(ex, s4) :=
          match s3 with
          | e :: r' =>
              if (e =? 101) || (e =? 69) then
                let '(eneg, r1) := take_sign r' in
                let '(ev, ne, r2) := take_digits r1 0 0 in
                match ne with
                | O => (None, s3)
                | S _ => (Some (signed eneg ev), r2)
                end
              else (None, s3)
          | [] => (None, s3)
          end in
        match nf, ex with
        | O, None => Some (JInt (signed neg m), s4)
        | _, _ =>
            Some (JFloat (Finite (signed neg m) (default 0%Z ex - Z.of_nat nf)), s4)
        end
  end.

(** One value at the start of [s], and the text after it. The nesting
    depth a decoder accepts is bounded by the interpreter's recursion
    limit; the bound here is the size of the text. *)
Fixpoint scan_once (fuel : nat) (s : pystr) : option (json * pystr) :=
  match fuel with
  | O => None
  | S fuel' =>
      match s with
      | [] => None
      | 34 :: r => '(str, r') ← scanstring r []; Some (JStr str, r')
      | 123 :: r =>
          match skip_ws r with
          | 125 :: r' => Some (JObj [], r')
          | r' => scan_members fuel' [] r'
          end
      | 91 :: r =>
          match skip_ws r with
          | 93 :: r' => Some (JList [], r')
          | r' => scan_items fuel' [] r'
          end
      | _ =>
          if startswith (py "null") s then Some (JNull, drop 4 s)
          else if startswith (py "true") s then Some (JBool true, drop 4 s)
          else if startswith (py "false") s then Some (JBool false, drop 5 s)
          else if startswith (py "NaN") s then Some (JFloat NaN, drop 3 s)
          else if startswith (py "Infinity") s then Some (JFloat (Inf false), drop 8 s)
          else if startswith (py "-Infinity") s then Some (JFloat (Inf true), drop 9 s)
          else scan_number s
      end
  end
with scan_items (fuel : nat) (acc : list json) (s : pystr) : option (json * pystr) :=
  match fuel with
  | O => None
  | S fuel' =>
      '(v, r) ← scan_once fuel' s;
      match skip_ws r with
      | 93 :: r' => Some (JList (rev (v :: acc)), r')
      | 44 :: r' => scan_items fuel' (v :: acc) (skip_ws r')
      | _ => None
      end
  end
with scan_members (fuel : nat) (acc : list (pystr * json)) (s : pystr)
  : option (json * pystr) :=
  match fuel with
  | O => None
  | S fuel' =>
      match s with
      | 34 :: r =>
          '(key, r1) ← scanstring r [];
          match skip_ws r1 with
          | 58 :: r2 =>
              '(v, r3) ← scan_once fuel' (skip_ws r2);
              match skip_ws r3 with
              | 125 :: r' => Some (JObj (dict_set key v acc), r')
              | 44 :: r' => scan_members fuel' (dict_set key v acc) (skip_ws r')
              | _ => None
              end
          | _ => None
          end
      | _ => None
      end
  end.

(** [json.loads(s)] *)
Definition json_loads (s : pystr) : exc json :=
  match s with
  | 65279 :: _ => Raise JSONDecodeError
  | _ =>
      match scan_once (2 * length s + 2) (skip_ws s) with
      | Some (v, r) =>
          match skip_ws r with
          | [] => Ok v
          | _ => Raise JSONDecodeError
          end
      | None => Raise JSONDecodeError
      end
  end.

(** JSON text is written below with single quotes in place of the
    double quotes of the page. *)
Definition json_text (s : string) : pystr :=
  map (fun c => if c =? 39 then 34 else c) (py s).

(** *** [str(v)] and [repr(v)] *)

Fixpoint digits_aux (fuel : nat) (n : N) (acc : pystr) : pystr :=
  match fuel with
  | O => acc
  | S fuel' =>
      let acc' := (48 + n mod 10) :: acc in
      if n <? 10 then acc' else digits_aux fuel' (n / 10) acc'
  end.

Definition str_of_N (n : N) : pystr := digits_aux (S (N.to_nat (N.log2 n))) n [].

Definition str_of_Z (z : Z) : pystr :=
  (if (z <? 0)%Z then [45] else []) ++ str_of_N (Z.abs_N z).

(** Moves the trailing zeros of a mantissa into the exponent. *)
Fixpoint trim_zeros (fuel : nat) (m : N) (e : Z) : N * Z :=
  match fuel with
  | O => (m, e)
  | S fuel' => if (m mod 10 =? 0) && (0 <? m) then trim_zeros fuel' (m / 10) (e + 1)%Z else (m, e)
  end.

(** [repr(x)] of a float: positional notation when the decimal point
    falls within the digits or close to them, exponent notation
    otherwise. *)
Definition float_repr (x : pyfloat) : pystr :=
  match x with
  | NaN => py "nan"
  | Inf neg => if neg then py "-inf" else py "inf"
  | Finite m e =>
      if (m =? 0)%Z then py "0.0"
      else
        let '(m', e') := trim_zeros (S (N.to_nat (N.log2 (Z.abs_N m)))) (Z.abs_N m) e in
        let ds := str_of_N m' in
        let n := Z.of_nat (length ds) in
        let decpt := (n + e')%Z in
        (if (m <? 0)%Z then [45] else []) ++
        (if (decpt <=? -4)%Z || (16 <? decpt)%Z then
           take 1 ds ++ (match drop 1 ds with [] => [] | r => ch_dot :: r end)
           ++ [101] ++ (if (decpt - 1 <? 0)%Z then [45] else [43])
           ++ (let xs := str_of_N (Z.abs_N (decpt - 1)) in
               match xs with [_] => 48 :: xs | _ => xs end)
         else if (decpt <=? 0)%Z then
           py "0." ++ repeat 48 (Z.to_nat (- decpt)) ++ ds
         else if (n <=? decpt)%Z then
           ds ++ repeat 48 (Z.to_nat (decpt - n)) ++ py ".0"
         else take (Z.to_nat decpt) ds ++ [ch_dot] ++ drop (Z.to_nat decpt) ds)
  end.

Definition hex_digit (n : N) : pychar := if n <? 10 then 48 + n else 87 + n.

(** [repr(s)] of a string; of the characters that are not printable only
    the ASCII control characters are escaped here. *)
Definition repr_str (s : pystr) : pystr :=
  let q : pychar := if contains [39] s && negb (contains [34] s) then 34 else 39 in
  [q] ++
  flat_map (fun c : pychar =>
    if c =? 92 then [92; 92]
    else if c =? q then [92; q]
    else if c =? 10 then [92; 110]
    else if c =? 13 then [92; 114]
    else if c =? 9 then [92; 116]
    else if (c <? 32) || (c =? 127) then [92; 120; hex_digit (c / 16); hex_digit (c mod 16)]
    else [c]) s
  ++ [q].

Fixpoint py_repr (v : json) : pystr :=
  match v with
  | JNull => py "None"
  | JBool b => if b then py "True" else py "False"
  | JInt z => str_of_Z z
  | JFloat f => float_repr f
  | JStr s => repr_str s
  | JList l => [91] ++ join (py ", ") (map py_repr l) ++ [93]
  | JObj d =>
      [123] ++ join (py ", ") (map (fun kv => repr_str (fst kv) ++ py ": " ++ py_repr (snd kv)) d)
      ++ [125]
  end.

(** [str(v)] *)
Definition py_str (v : json) : pystr :=
  match v with
  | JStr s => s
  | _ => py_repr v
  end.

(* ================================================================== *)
(** ** [urllib.parse.urlparse] *)
(* ================================================================== *)

Record ParseResult := { scheme : pystr; netloc : pystr; url_path : pystr }.

(** The text before the first character satisfying [p], and the text
    from that character on. *)
Fixpoint span_until (p : pychar -> bool) (s : pystr) : pystr * pystr :=
  match s with
  | [] => ([], [])
  | c :: r => if p c then ([], s) else let '(a, b) := span_until p r in (c :: a, b)
  end.

Fixpoint lstrip_c0 (s : pystr) : pystr :=
  match s with
  | c :: r => if c <=? 32 then lstrip_c0 r else s
  | [] => []
  end.

Definition is_ascii_alpha (c : pychar) : bool :=
  ((65 <=? c) && (c <=? 90)) || ((97 <=? c) && (c <=? 122)).

Definition scheme_char (c : pychar) : bool :=
  is_ascii_alpha c || is_ascii_digit c || (c =? 43) || (c =? 45) || (c =? 46).

Definition uses_params : list pystr :=
  [ []; py "ftp"; py "hdl"; py "prospero"; py "http"; py "imap"; py "https";
    py "shttp"; py "rtsp"; py "rtspu"; py "sip"; py "sips"; py "mms"; py "sftp";
    py "tel" ].

(** [urlparse(url)]: scheme, netloc and path. A netloc with one square
    bracket and not the other raises ValueError ("Invalid IPv6 URL").
    The later checks of the netloc (the host between the brackets, the
    NFKC form), which raise the same error on further inputs, are not
    part of this model. *)
Definition urlparse (url : pystr) : exc ParseResult :=
  let url := lstrip_c0 url in
  let url := filter (fun c => c ≠ 9 ∧ c ≠ 13 ∧ c ≠ 10) url in
  let '(sch, url) :=
    match url with
    | c0 :: _ =>
        match span_until (N.eqb 58) url with
        | (pre, _ :: rest) =>
            if is_ascii_alpha c0 && forallb scheme_char pre
            then (lower_ascii pre, rest) else ([], url)
        | (_, []) => ([], url)
        end
    | [] => ([], url)
    end in
  '(net, url) ←
    (if startswith (py "//") url
     then
       let '(net, rest) :=
         span_until (fun c => (c =? 47) || (c =? 63) || (c =? 35)) (drop 2 url) in
       if xorb (contains [91] net) (contains [93] net)
       then Raise ValueError
       else Ok (net, rest)
     else Ok ([], url));
  let url := fst (span_until (N.eqb 35) url) in
  let url := fst (span_until (N.eqb 63) url) in
  let url :=
    if bool_decide (sch ∈ uses_params)
    then
      let '(last_rev, head_rev) := span_until (N.eqb 47) (rev url) in
      rev head_rev ++ fst (span_until (N.eqb 59) (rev last_rev))
    else url in
  Ok {| scheme := sch; netloc := net; url_path := url |}.

(* ================================================================== *)
(** ** BeautifulSoup trees *)
(* ================================================================== *)

(** The classes of the strings of a tree. *)
Inductive strclass :=
| NavigableString
| CData
| Comment
| Script
| Stylesheet
| TemplateString
| RubyTextString
| RubyParenthesisString
| Doctype.

#[export] Instance strclass_eq_dec : EqDecision strclass.
Proof. solve_decision. Defined.

(** A node is a tag, with its name, its attribute dict (the list of its
    items, with distinct keys) and its contents, or a string. *)
Inductive node :=
| Tag (name : pystr) (attrs : list (pystr * pystr)) (contents : list node)
| Text (cls : strclass) (s : pystr).

(** A tag of the tree as the code holds it. [tag_position] is the place
    of the tag in the tree, the child indices from the tag up to the
    root: it stands for the identity [id(el)] of the object, and its
    tail is the place of [el.parent]. The BeautifulSoup object itself is
    at [[]] and has no parent. *)
Record element := Element {
  tag_position : list nat;
  tag_name : pystr;
  tag_attrs : list (pystr * pystr);
  tag_contents : list node
}.

(** Name and attributes of the tags above a tag, nearest first. *)
Definition tag_info := (pystr * list (pystr * pystr))%type.

(** The tags of [n] in document order that satisfy [keep], [n] included,
    followed by [rest]. *)
Fixpoint walk (keep : list tag_info -> element -> bool)
    (above : list tag_info) (pos : list nat) (n : node) (rest : list element)
  : list element :=
  match n with
  | Text _ _ => rest
  | Tag name attrs cs =>
      let el := Element pos name attrs cs in
      let below :=
        (fix children (i : nat) (l : list node) : list element :=
           match l with
           | [] => rest
           | c :: l' => walk keep ((name, attrs) :: above) (i :: pos) c (children (S i) l')
           end) 0%nat cs in
      if keep above el then el :: below else below
  end.

Fixpoint walk_children (keep : list tag_info -> element -> bool)
    (above : list tag_info) (pos : list nat) (i : nat) (l : list node)
    (rest : list element) : list element :=
  match l with
  | [] => rest
  | c :: l' => walk keep above (i :: pos) c (walk_children keep above pos (S i) l' rest)
  end.

(** The tags below the BeautifulSoup object [soup] (given by its
    contents) that satisfy [keep], in document order. *)
Definition descendants (keep : list tag_info -> element -> bool) (soup : list node)
  : list element :=
  walk_children keep [] [] 0 soup [].

(** [el.get(key)] *)
Fixpoint attr_get (attributes : list (pystr * pystr)) (key : pystr) : option pystr :=
  match attributes with
  | [] => None
  | (k, v) :: rest => if bool_decide (k = key) then Some v else attr_get rest key
  end.

(** [soup.find_all(True)] *)
Definition find_all_tags (soup : list node) : list element :=
  descendants (fun _ _ => true) soup.

(** [soup.find_all(name)] and [soup.find(name)] *)
Definition find_all (soup : list node) (name : pystr) : list element :=
  descendants (fun _ el => bool_decide (tag_name el = name)) soup.

Definition find (soup : list node) (name : pystr) : option element :=
  head (find_all soup name).

(** [soup.find_all(name, attr=value)] and [soup.find(name, attr=value)] *)
Definition find_all_attr (soup : list node) (name attr value : pystr) : list element :=
  descendants (fun _ el =>
    bool_decide (tag_name el = name) &&
    bool_decide (attr_get (tag_attrs el) attr = Some value)) soup.

Definition find_attr (soup : list node) (name attr value : pystr) : option element :=
  head (find_all_attr soup name attr value).

(** The strings below a node, in document order. *)
Fixpoint strings_of (n : node) : list (strclass * pystr) :=
  match n with
  | Text c s => [(c, s)]
  | Tag _ _ cs => flat_map strings_of cs
  end.

(** The classes of strings [get_text] collects below a tag of the given
    name (BeautifulSoup 4.11 and later: the text of a script, a style
    sheet or a template counts only for the tag that holds it). *)
Definition interesting (name : pystr) (c : strclass) : bool :=
  if bool_decide (name = py "script") then bool_decide (c = Script)
  else if bool_decide (name = py "style") then bool_decide (c = Stylesheet)
  else if bool_decide (name = py "template") then bool_decide (c = TemplateString)
  else if bool_decide (name = py "rt") then bool_decide (c = RubyTextString)
  else if bool_decide (name = py "rp") then bool_decide (c = RubyParenthesisString)
  else bool_decide (c = NavigableString) || bool_decide (c = CData).

(** [el.get_text(separator, strip=True)] *)
Definition get_text (separator : pystr) (el : element) : pystr :=
  join separator
    (filter (fun s => s ≠ [])
       (map (fun cs => strip (snd cs))
          (filter (fun cs => interesting (tag_name el) (fst cs) = true)
             (flat_map strings_of (tag_contents el))))).

(** [n.string] *)
Fixpoint node_string (n : node) : option pystr :=
  match n with
  | Text _ s => Some s
  | Tag _ _ [c] => node_string c
  | Tag _ _ _ => None
  end.

Definition tag_string (el : element) : option pystr :=
  match tag_contents el with
  | [c] => node_string c
  | _ => None
  end.

(** [any(hasattr(c, "name") and c.name for c in el.children)] *)
Definition has_child_tags (el : element) : bool :=
  existsb (fun c => match c with Tag _ _ _ => true | Text _ _ => false end) (tag_contents el).

(** *** CSS selectors ([soup.select]) *)

Inductive simple_selector :=
| SelTag (name : pystr)            (* name *)
| SelId (id : pystr)               (* #id *)
| SelClass (cls : pystr)           (* .cls *)
| SelAttrEq (attr value : pystr)   (* [attr="value"] *)
| SelAttrHas (attr value : pystr). (* [attr*="value"] *)

Inductive selector :=
| Compound (c : list simple_selector)
| Child (parent : selector) (c : list simple_selector)          (* parent > c *)
| Descendant (ancestor : selector) (c : list simple_selector).  (* ancestor c *)

(** The value of an attribute as a selector reads it: the class list
    joined by blanks, any other attribute as it is. *)
Definition attr_text (attributes : list (pystr * pystr)) (attr : pystr) : option pystr :=
  v ← attr_get attributes attr;
  Some (if bool_decide (attr = py "class") then join [ch_space] (split_ws v) else v).

Definition simple_match (s : simple_selector) (t : tag_info) : bool :=
  match s with
  | SelTag name => bool_decide (t.1 = name)
  | SelId id => bool_decide (attr_get t.2 (py "id") = Some id)
  | SelClass cls =>
      match attr_get t.2 (py "class") with
      | Some v => bool_decide (cls ∈ split_ws v)
      | None => false
      end
  | SelAttrEq attr value => bool_decide (attr_text t.2 attr = Some value)
  | SelAttrHas attr value =>
      match attr_text t.2 attr with
      | Some v => contains value v
      | None => false
      end
  end.

Fixpoint selector_match (sel : selector) (t : tag_info) (above : list tag_info) : bool :=
  match sel with
  | Compound c => forallb (fun s => simple_match s t) c
  | Child parent c =>
      if forallb (fun s => simple_match s t) c
      then match above with
           | p :: above' => selector_match parent p above'
           | [] => false
           end
      else false
  | Descendant ancestor c =>
      if forallb (fun s => simple_match s t) c
      then (fix some (l : list tag_info) : bool :=
              match l with
              | [] => false
              | a :: l' => if selector_match ancestor a l' then true else some l'
              end) above
      else false
  end.

(** [soup.select(sel)] *)
Definition select (soup : list node) (sel : selector) : list element :=
  descendants (fun above el => selector_match sel (tag_name el, tag_attrs el) above) soup.

(* ================================================================== *)
(** ** scraper_utils.py: anchor, distance, title *)
(* ================================================================== *)

Definition _SKIP : list pystr :=
  [py "script"; py "style"; py "meta"; py "link"; py "head"; py "noscript"].

(** The loop of [_find_anchor_element]: the best element so far and its
    score, [len(needle) / len(text_lower)], kept as an exact fraction. *)
Definition anchor_step (needle : pystr) (st : option element * Q) (el : element)
  : option element * Q :=
  if bool_decide (tag_name el ∈ _SKIP) then st
  else
    let text := get_text [] el in
    match text with
    | [] => st
    | _ =>
        let text_lower := lower text in
        if negb (contains needle text_lower) then st
        else
          let score := Z.of_nat (length needle) # Pos.of_nat (length text_lower) in
          match Qcompare score st.2 with
          | Gt => (Some el, score)
          | _ => st
          end
    end.

Definition _find_anchor_element (soup : list node) (product_name : pystr) : option element :=
  let needle := strip (lower product_name) in
  match needle with
  | [] => find soup (py "h1")
  | _ =>
      let '(best_el, _) := foldl (anchor_step needle) (None, 0%Q) (find_all_tags soup) in
      match best_el with
      | Some el => Some el
      | None => find soup (py "h1")
      end
  end.

(** The first loop of [_dom_distance]: the dict from the identity of each
    node on the way from [node] up to the root to its depth. *)
Fixpoint ancestor_depths (node : list nat) (depth : Z) (ancestors_a : gmap (list nat) Z)
  : gmap (list nat) Z :=
  let ancestors_a := <[node := depth]> ancestors_a in
  match node with
  | [] => ancestors_a
  | _ :: parent => ancestor_depths parent (depth + 1)%Z ancestors_a
  end.

(** The second loop: up from [node] until a node of the dict is met. *)
Fixpoint first_common (ancestors_a : gmap (list nat) Z) (node : list nat) (depth : Z) : Z :=
  match ancestors_a !! node with
  | Some d => (d + depth)%Z
  | None =>
      match node with
      | [] => 10000%Z
      | _ :: parent => first_common ancestors_a parent (depth + 1)%Z
      end
  end.

Definition _dom_distance (el_a el_b : element) : Z :=
  first_common (ancestor_depths (tag_position el_a) 0 ∅) (tag_position el_b) 0.

(** [data = json.loads(script.string or ""); if isinstance(data, list):
    data = data[0]] *)
Definition load_block (script : element) : exc json :=
  data ← json_loads (match tag_string script with Some s => s | None => [] end);
  match data with
  | JList l => first_item l
  | _ => Ok data
  end.

Definition ld_json_scripts (soup : list node) : list element :=
  find_all_attr soup (py "script") (py "type") (py "application/ld+json").

(** The loop over the JSON-LD blocks of [_extract_title]; an exception
    in a block passes to the next block. *)
Fixpoint title_from_json_ld (scripts : list element) : option pystr :=
  match scripts with
  | [] => None
  | script :: rest =>
      let found :=
        data ← load_block script;
        ty ← get data (py "@type");
        if is_str ty (py "Product")
        then name ← get data (py "name");
             Ok (if truthy name then Some (strip (py_str name)) else None)
        else Ok None in
      match found with
      | Ok (Some title) => Some title
      | _ => title_from_json_ld rest
      end
  end.

Definition _extract_title (soup : list node) : pystr :=
  match title_from_json_ld (ld_json_scripts soup) with
  | Some title => title
  | None =>
      match find soup (py "h1") with
      | Some h1 => get_text [] h1
      | None =>
          let og :=
            match find_attr soup (py "meta") (py "property") (py "og:title") with
            | Some og => Some og
            | None => find_attr soup (py "meta") (py "name") (py "og:title")
            end in
          match og ≫= (fun og => attr_get (tag_attrs og) (py "content")) with
          | Some (c :: content) => strip (c :: content)
          | _ =>
              match find soup (py "title") with
              | Some title_tag => get_text [] title_tag
              | None => py "Unknown Product"
              end
          end
      end
  end.

(* ================================================================== *)
(** ** scraper_utils.py: the three strategies *)
(* ================================================================== *)

(** What the loop of [_try_json_ld] reads from one block before it
    compares paths: name, price, currency and [ld_path]. *)
Record ld_entry := LdEntry {
  e_name : json;        (* a str or None *)
  e_price : pyfloat;
  e_currency : json;
  e_path : pystr
}.

(** [ld_path]: the path of the [url] or [@id] of the block when it starts
    with [http], the field itself otherwise, without trailing slashes. *)
Definition ld_path_of (data : json) : exc pystr :=
  ld_url ← get data (py "url");
  ld_url_raw ← (if truthy ld_url then Ok ld_url
                else ld_id ← get data (py "@id"); Ok (py_or ld_id (JStr [])));
  match ld_url_raw with
  | JStr s =>
      if startswith (py "http") s
      then parsed ← urlparse s; Ok (rstrip_char ch_slash (url_path parsed))
      else Ok (rstrip_char ch_slash s)
  | _ => Raise AttributeError
  end.

(** The body of the loop for one block, up to [ld_path]; [None] where it
    runs into [continue]. *)
Definition read_entry (script : element) : exc (option ld_entry) :=
  data ← load_block script;
  ty ← get data (py "@type");
  if negb (is_str ty (py "Product")) then Ok None
  else
    offers ← get_default data (py "offers") (JObj []);
    offers ← (match offers with JList l => first_item l | _ => Ok offers end);
    offers_price ← get offers (py "price");
    price_raw ← (if truthy offers_price then Ok offers_price else get data (py "price"));
    name ← get data (py "name");
    currency ← get_default offers (py "priceCurrency") (JStr (py "USD"));
    match price_raw with
    | JNull => Ok None
    | _ =>
        match float_of_str (replace_char ch_comma [] (py_str price_raw)) with
        | None => Ok None
        | Some price =>
            ld_path ← ld_path_of data;
            Ok (Some {|
              e_name := if truthy name then JStr (strip (py_str name)) else JNull;
              e_price := price;
              e_currency := currency;
              e_path := ld_path |})
        end
    end.

(** [bool(page_path and ld_path and page_path == ld_path)] *)
Definition paths_match (page_path ld_path : pystr) : bool :=
  match page_path, ld_path with
  | _ :: _, _ :: _ => bool_decide (page_path = ld_path)
  | _, _ => false
  end.

(** An entry of [candidates] in [_try_json_ld]. *)
Record candidate := Candidate {
  c_name : json;
  c_price : pyfloat;
  c_currency : json;
  url_match : bool
}.

Definition candidate_of (page_path : pystr) (e : ld_entry) : candidate :=
  {| c_name := e_name e; c_price := e_price e; c_currency := e_currency e;
     url_match := paths_match page_path (e_path e) |}.

Definition ld_candidate (page_path : pystr) (script : element) : exc (option candidate) :=
  e ← read_entry script;
  Ok (option_map (candidate_of page_path) e).

(** The candidates collected over all blocks; a block that raises is
    passed over. *)
Definition ld_candidates (page_path : pystr) (scripts : list element) : list candidate :=
  flat_map (fun script =>
    match ld_candidate page_path script with
    | Ok (Some c) => [c]
    | _ => []
    end) scripts.

(** [urlparse(page_url).path.rstrip("/") if page_url else ""] *)
Definition request_path (page_url : pystr) : exc pystr :=
  match page_url with
  | [] => Ok []
  | _ => parsed ← urlparse page_url; Ok (rstrip_char ch_slash (url_path parsed))
  end.

(** The dict [_try_json_ld] returns for the chosen candidate. *)
Definition ld_result (chosen : candidate) : gmap string json :=
  {[ "name" := c_name chosen;
     "price" := JFloat (c_price chosen);
     "currency" := c_currency chosen ]}.

Definition _try_json_ld (soup : list node) (page_url : pystr)
  : exc (option (gmap string json)) :=
  page_path ← request_path page_url;
  let candidates := ld_candidates page_path (ld_json_scripts soup) in
  match candidates with
  | [] => Ok None
  | first :: _ =>
      let matched := filter (fun c => url_match c = true) candidates in
      let chosen := match matched with m :: _ => m | [] => first end in
      Ok (Some (ld_result chosen))
  end.

Definition _PRICE_SELECTORS : list (selector * pystr) :=
  [ (Compound [SelAttrEq (py "itemprop") (py "price")], py "content");
    (Compound [SelAttrEq (py "itemprop") (py "price")], py "text");
    (Compound [SelTag (py "meta"); SelAttrEq (py "property") (py "product:price:amount")],
     py "content");
    (Compound [SelTag (py "meta"); SelAttrEq (py "property") (py "og:price:amount")],
     py "content");
    (Compound [SelId (py "priceblock_ourprice")], py "text");
    (Compound [SelId (py "priceblock_dealprice")], py "text");
    (Child (Compound [SelClass (py "a-price")]) [SelClass (py "a-offscreen")], py "text");
    (Compound [SelId (py "price_inside_buybox")], py "text");
    (Descendant (Compound [SelClass (py "priceView-hero-price")])
       [SelTag (py "span"); SelAttrEq (py "aria-hidden") (py "true")], py "text");
    (Compound [SelAttrHas (py "data-test-id") (py "Price")], py "text");
    (Compound [SelAttrHas (py "data-test-id") (py "price")], py "text");
    (Compound [SelAttrHas (py "data-testid") (py "Price")], py "text");
    (Compound [SelAttrHas (py "data-testid") (py "price")], py "text");
    (Compound [SelAttrHas (py "data-name-id") (py "Price")], py "text");
    (Compound [SelClass (py "product-price")], py "text");
    (Compound [SelClass (py "price--main")], py "text");
    (Descendant (Compound [SelClass (py "price-box")]) [SelClass (py "price")], py "text");
    (Compound [SelClass (py "woocommerce-Price-amount")], py "text");
    (Compound [SelAttrHas (py "class") (py "ProductPrice")], py "text");
    (Compound [SelAttrHas (py "class") (py "product-price")], py "text");
    (Compound [SelAttrHas (py "class") (py "current-price")], py "text");
    (Compound [SelAttrHas (py "class") (py "sale-price")], py "text");
    (Compound [SelId (py "price")], py "text");
    (Compound [SelClass (py "price")], py "text") ].

(** The state of the loops of the two positional strategies. *)
Record best := Best {
  best_dist : Z;
  best_price : option pyfloat;
  best_currency : pystr
}.

Definition best_init : best :=
  {| best_dist := 10001; best_price := None; best_currency := py "USD" |}.

(** [if anchor is None: anchor = soup.find("h1")] *)
Definition anchor_or_h1 (soup : list node) (anchor : option element) : option element :=
  match anchor with
  | None => find soup (py "h1")
  | Some a => Some a
  end.

(** [_dom_distance(el, anchor) if anchor else 0] *)
Definition anchor_dist (anchor : option element) (el : element) : Z :=
  match anchor with
  | Some a => _dom_distance el a
  | None => 0%Z
  end.

(** [if dist < best_dist: ...] *)
Definition keep_closest (st : best) (dist : Z) (price : pyfloat) (currency : pystr) : best :=
  if (dist <? best_dist st)%Z
  then {| best_dist := dist; best_price := Some price; best_currency := currency |}
  else st.

(** The text a selector of the pool reads from a matched element. *)
Definition selector_raw (attr_type : pystr) (el : element) : pystr :=
  if bool_decide (attr_type = py "text") then get_text [ch_space] el
  else match attr_get (tag_attrs el) attr_type with Some v => v | None => [] end.

(** The body of the inner loop of [_try_selectors]. *)
Definition selector_step (anchor : option element) (attr_type : pystr)
    (st : best) (el : element) : best :=
  let raw := selector_raw attr_type el in
  match _extract_price_from_text raw with
  | None => st
  | Some price =>
      if negb (float_truthy price) || float_leb price float_zero then st
      else keep_closest st (anchor_dist anchor el) price (_detect_currency raw)
  end.

Definition best_result (st : best) : option (gmap string json) :=
  match best_price st with
  | Some price =>
      Some ({[ "price" := JFloat price; "currency" := JStr (best_currency st) ]}
              : gmap string json)
  | None => None
  end.

Definition _try_selectors (soup : list node) (anchor : option element)
  : option (gmap string json) :=
  let anchor := anchor_or_h1 soup anchor in
  best_result
    (foldl (fun st '(sel, attr_type) =>
              foldl (selector_step anchor attr_type) st (select soup sel))
           best_init _PRICE_SELECTORS).

(** The body of the loop of [_try_proximity_sweep]. *)
Definition sweep_step (anchor : option element) (st : best) (el : element) : best :=
  if bool_decide (tag_name el ∈ _SKIP) then st
  else if has_child_tags el then st
  else
    let text := get_text [ch_space] el in
    match text with
    | [] => st
    | _ =>
        if (30 <? length text)%nat then st
        else
          match _extract_price_from_text text with
          | None => st
          | Some price =>
              if negb (float_truthy price)
                 || negb (float_ltb float_zero price && float_ltb price (Finite 1000000 0))
              then st
              else keep_closest st (anchor_dist anchor el) price (_detect_currency text)
          end
    end.

Definition _try_proximity_sweep (soup : list node) (anchor : option element)
  : option (gmap string json) :=
  let anchor := anchor_or_h1 soup anchor in
  best_result (foldl (sweep_step anchor) best_init (find_all_tags soup)).

(* ================================================================== *)
(** ** scraper_utils.py: [scrape_product] *)
(* ================================================================== *)

(** [d.setdefault(key, v)] *)
Definition setdefault (key : string) (v : json) (d : gmap string json) : gmap string json :=
  match d !! key with
  | Some _ => d
  | None => <[key := v]> d
  end.

(** [bool(result)] for a dict or [None] *)
Definition result_truthy (result : option (gmap string json)) : bool :=
  match result with
  | Some d => negb (bool_decide (d = ∅))
  | None => false
  end.

(** [_find_anchor_element(soup, product_name) if product_name else
    soup.find("h1")] *)
Definition resolve_anchor (soup : list node) (product_name : pystr) : option element :=
  match product_name with
  | [] => find soup (py "h1")
  | _ => _find_anchor_element soup product_name
  end.

(** [scrape_product(url, render, product_name)]. Fetching the page and
    building its tree are the work of the network and of the HTML
    parser: [html] is what [_fetch_html(url, render)] returned and
    [soup] the contents of the tree [BeautifulSoup(html, "html.parser")]
    builds from it. *)
Definition scrape_product (url : pystr) (html : option pystr) (soup : list node)
    (product_name : pystr) : exc (option (gmap string json)) :=
  parsed ← urlparse url;
  if negb (bool_decide (scheme parsed ∈ [py "http"; py "https"]))
     || bool_decide (netloc parsed = [])
  then Ok None
  else
    match html with
    | None | Some [] => Ok None
    | Some _ =>
        let anchor := resolve_anchor soup product_name in
        result ← _try_json_ld soup url;
        if result_truthy result
        then Ok (setdefault "name" (JStr (_extract_title soup)) <$> result)
        else
          let result := _try_selectors soup anchor in
          if result_truthy result
          then Ok (<["name" := JStr (_extract_title soup)]> <$> result)
          else
            let result := _try_proximity_sweep soup anchor in
            if result_truthy result
            then Ok (<["name" := JStr (_extract_title soup)]> <$> result)
            else Ok None
    end.

(* ================================================================== *)
(** ** email_utils.py *)
(* ================================================================== *)

(** Template text is written below with a backquote in place of each
    double quote, one line per item. *)
Definition html_text (s : string) : pystr :=
  map (fun c => if c =? 96 then 34 else c) (py s).

Definition html_lines (ls : list string) : pystr :=
  join [10] (map html_text ls).

(** The text of [_BASE_HTML] around its four fields. *)
Definition base_head : pystr :=
  html_lines
    [ "<!DOCTYPE html>";
      "<html lang=`en`>";
      "<head>";
      "  <meta charset=`UTF-8` />";
      "  <meta name=`viewport` content=`width=device-width, initial-scale=1.0` />";
      "  <title>" ].

Definition base_after_title : pystr :=
  html_lines
    [ "</title>";
      "  <style>";
      "    body {";
      "      margin: 0; padding: 0;";
      "      background: #0f0f1a;";
      "      font-family: -apple-system, BlinkMacSystemFont, 'Segoe UI', Roboto, sans-serif;";
      "      color: #e2e8f0;";
      "    }";
      "    .wrapper {";
      "      max-width: 580px;";
      "      margin: 40px auto;";
      "      background: #1a1a2e;";
      "      border-radius: 16px;";
      "      overflow: hidden;";
      "      border: 1px solid rgba(99,102,241,0.3);";
      "    }";
      "    .header {";
      "      background: linear-gradient(135deg, #6366f1 0%, #8b5cf6 100%);";
      "      padding: 32px 40px;";
      "      text-align: center;";
      "    }";
      "    .header .logo {";
      "      font-size: 13px;";
      "      font-weight: 700;";
      "      letter-spacing: 3px;";
      "      text-transform: uppercase;";
      "      color: rgba(255,255,255,0.75);";
      "      margin-bottom: 8px;";
      "    }";
      "    .header h1 {";
      "      margin: 0;";
      "      font-size: 24px;";
      "      font-weight: 800;";
      "      color: #fff;";
      "    }";
      "    .body {";
      "      padding: 36px 40px;";
      "    }";
      "    .body p {";
      "      margin: 0 0 16px;";
      "      line-height: 1.65;";
      "      color: #cbd5e1;";
      "      font-size: 15px;";
      "    }";
      "    .product-card {";
      "      background: rgba(99,102,241,0.08);";
      "      border: 1px solid rgba(99,102,241,0.25);";
      "      border-radius: 12px;";
      "      padding: 20px 24px;";
      "      margin: 24px 0;";
      "    }";
      "    .product-name {";
      "      font-size: 16px;";
      "      font-weight: 600;";
      "      color: #e2e8f0;";
      "      margin: 0 0 12px;";
      "    }";
      "    .price-row {";
      "      display: flex;";
      "      align-items: center;";
      "      gap: 16px;";
      "      flex-wrap: wrap;";
      "    }";
      "    .price-badge {";
      "      display: inline-block;";
      "      background: linear-gradient(135deg, #6366f1, #8b5cf6);";
      "      color: #fff;";
      "      font-size: 22px;";
      "      font-weight: 800;";
      "      padding: 6px 18px;";
      "      border-radius: 8px;";
      "    }";
      "    .price-old {";
      "      text-decoration: line-through;";
      "      color: #64748b;";
      "      font-size: 18px;";
      "    }";
      "    .savings-badge {";
      "      background: rgba(34,197,94,0.15);";
      "      border: 1px solid rgba(34,197,94,0.4);";
      "      color: #4ade80;";
      "      font-size: 13px;";
      "      font-weight: 700;";
      "      padding: 4px 12px;";
      "      border-radius: 20px;";
      "    }";
      "    .cta-button {";
      "      display: inline-block;";
      "      background: linear-gradient(135deg, #6366f1, #8b5cf6);";
      "      color: #fff !important;";
      "      text-decoration: none;";
      "      font-weight: 700;";
      "      font-size: 15px;";
      "      padding: 14px 32px;";
      "      border-radius: 10px;";
      "      margin: 8px 8px 8px 0;";
      "    }";
      "    .footer {";
      "      border-top: 1px solid rgba(255,255,255,0.06);";
      "      padding: 24px 40px;";
      "      text-align: center;";
      "      font-size: 12px;";
      "      color: #475569;";
      "      line-height: 1.6;";
      "    }";
      "    .footer a {";
      "      color: #6366f1;";
      "      text-decoration: none;";
      "    }";
      "  </style>";
      "</head>";
      "<body>";
      "  <div class=`wrapper`>";
      "    <div class=`header`>";
      "      <div class=`logo`>Price Drop Notifier</div>";
      "      <h1>" ].

Definition base_after_header : pystr :=
  html_lines
    [ "</h1>";
      "    </div>";
      "    <div class=`body`>";
      "      " ].

Definition base_after_body : pystr :=
  html_lines
    [ "";
      "    </div>";
      "    <div class=`footer`>";
      "      " ].

Definition base_after_footer : pystr :=
  html_lines
    [ "";
      "    </div>";
      "  </div>";
      "</body>";
      "</html>" ].

(** [_BASE_HTML.format(title=..., header=..., body=..., footer=...)] *)
Definition _BASE_HTML (title header body footer : pystr) : pystr :=
  base_head ++ title ++ base_after_title ++ header ++ base_after_header
  ++ body ++ base_after_body ++ footer ++ base_after_footer.

Definition _esc (text : pystr) : pystr :=
  replace_char 34 (py "&quot;")
    (replace_char 62 (py "&gt;")
       (replace_char 60 (py "&lt;")
          (replace_char 38 (py "&amp;") text))).

(** [build_unsubscribe_page(product_name)]; [None] is an absent name. *)
Definition build_unsubscribe_page (product_name : option pystr) : pystr :=
  let name_blurb :=
    match product_name with
    | Some (c :: name) =>
        py " from <strong>" ++ _esc (c :: name) ++ py "</strong> price alerts"
    | _ => []
    end in
  let body :=
    html_lines [ "";
                 "      <p>You've been successfully unsubscribed" ]
    ++ name_blurb ++
    html_lines [ ".</p>";
                 "      <p>You will no longer receive price drop notifications for this product.";
                 "         If you change your mind, just visit the app to subscribe again.</p>";
                 "    " ] in
  let footer := py "© Price Drop Notifier" in
  _BASE_HTML (py "Unsubscribed") (py "You've been unsubscribed") body footer.

Definition build_already_unsubscribed_page : pystr :=
  let body := py "<p>This unsubscribe link has already been used or is invalid.</p>" in
  let footer := py "© Price Drop Notifier" in
  _BASE_HTML (py "Already unsubscribed") (py "Nothing to do") body footer.

(* ================================================================== *)
(** ** subscribe/handler.py: the checks of a request *)
(* ================================================================== *)

(** The fragment of [re] the e-mail pattern is written in: a character
    of a class, one or more characters of a class (greedy, with
    backtracking), and sequences of these. *)
Inductive cregex :=
| CSet (p : pychar -> bool)
| CPlus (p : pychar -> bool)
| CCat (r1 r2 : cregex).

Fixpoint plus_loop (p : pychar -> bool) (k : pystr -> bool) (s : pystr) : bool :=
  match s with
  | c :: s' => if p c then (if plus_loop p k s' then true else k s') else false
  | [] => false
  end.

Fixpoint cmatch (r : cregex) (s : pystr) (k : pystr -> bool) : bool :=
  match r with
  | CSet p =>
      match s with
      | c :: s' => if p c then k s' else false
      | [] => false
      end
  | CPlus p => plus_loop p k s
  | CCat r1 r2 => cmatch r1 s (fun s1 => cmatch r2 s1 k)
  end.

(** [$]: the end of the text, or the newline that ends the text. *)
Definition at_end (s : pystr) : bool :=
  match s with
  | [] => true
  | [c] => c =? 10
  | _ => false
  end.

(** The class [[^@\s]] *)
Definition email_char (c : pychar) : bool := negb (c =? 64) && negb (isspace c).

(** [^[^@\s]+@[^@\s]+\.[^@\s]+$] *)
Definition _EMAIL_RE : cregex :=
  CCat (CPlus email_char)
    (CCat (CSet (N.eqb 64))
       (CCat (CPlus email_char)
          (CCat (CSet (N.eqb 46)) (CPlus email_char)))).

(** [bool(_EMAIL_RE.match(email))] *)
Definition email_match (email : pystr) : bool := cmatch _EMAIL_RE email at_end.

(** The fields of an API Gateway proxy event the handler reads. Each is
    a text when it is present; [None] is an absent field and, for the
    first three, also a null one. *)
Record api_event := ApiEvent {
  httpMethod : option pystr;
  event_body : option pystr;
  domainName : option pystr;   (* requestContext.domainName *)
  stage : option pystr         (* requestContext.stage *)
}.

Definition _get_api_base_url (event : api_event) : pystr :=
  let domain := default [] (domainName event) in
  let stage := default (py "Prod") (stage event) in
  match domain with
  | [] => []
  | _ => py "https://" ++ domain ++ py "/" ++ stage
  end.

Definition _build_unsubscribe_url (api_base token : pystr) : pystr :=
  rstrip_char ch_slash api_base ++ py "/unsubscribe?token=" ++ token.

(** [(body.get(key) or "").strip()] *)
Definition text_field (body : json) (key : pystr) : exc pystr :=
  v ← get body key;
  match py_or v (JStr []) with
  | JStr s => Ok (strip s)
  | _ => Raise AttributeError
  end.

(** [event.get("body") or "{}"] *)
Definition request_text (event : api_event) : pystr :=
  match event_body event with
  | Some (c :: s) => c :: s
  | _ => py "{}"
  end.

(** Where the checks at the start of [lambda_handler] lead. *)
Inductive checked :=
| Preflight                                  (* status 200 and an empty body *)
| Rejected (status : Z) (error : pystr)      (* _resp(status, {"error": error}) *)
| Accepted (url email product_name api_base : pystr).

(** [lambda_handler(event, context)] up to the call of
    [scrape_product(url, render=False, product_name=product_name)]. *)
Definition lambda_handler_checks (event : api_event) : exc checked :=
  if bool_decide (httpMethod event = Some (py "OPTIONS")) then Ok Preflight
  else
    match json_loads (request_text event) with
    | Raise JSONDecodeError => Ok (Rejected 400 (py "Invalid JSON body"))
    | Raise e => Raise e
    | Ok body =>
        url ← text_field body (py "url");
        email ← text_field body (py "email");
        let email := lower email in
        product_name ← text_field body (py "productName");
        if bool_decide (url = []) || bool_decide (email = [])
        then Ok (Rejected 400 (py "Both 'url' and 'email' are required."))
        else if negb (startswith (py "http://") url || startswith (py "https://") url)
        then Ok (Rejected 400 (py "URL must start with http:// or https://"))
        else if negb (email_match email)
        then Ok (Rejected 400 (py "Please provide a valid email address."))
        else Ok (Accepted url email product_name (_get_api_base_url event))
    end.

(* ================================================================== *)
(** ** scraper/handler.py: the check of one product *)
(* ================================================================== *)

(** [float(v)]; [None] stands for the TypeError or ValueError it
    raises. *)
Definition float_of_json (v : json) : option pyfloat :=
  match v with
  | JFloat f => Some f
  | JInt z => Some (Finite z 0)
  | JBool b => Some (Finite (if b then 1 else 0) 0)
  | JStr s => float_of_str s
  | _ => None
  end.

(** What the loop of [lambda_handler] does with a product that has a
    record. *)
Inductive price_check :=
| ScrapeFailed                                  (* results["errors"] += 1 *)
| Checked (new_price : pyfloat) (price_drop : bool).
                                 (* publish on a drop; store [new_price] *)

(** The body of the loop from the result [product] of [scrape_product]
    on: [stored_price] is [float(stored_item.get("currentPrice", 0))];
    [None] stands for an exception of [float]. *)
Definition check_product (stored_price : pyfloat) (product : option (gmap string json))
  : option price_check :=
  match product with
  | None => Some ScrapeFailed
  | Some d =>
      if bool_decide (d = ∅) then Some ScrapeFailed
      else
        match d !! "price" with
        | None => Some ScrapeFailed
        | Some v =>
            if negb (truthy v) then Some ScrapeFailed
            else
              new_price ← float_of_json v;
              Some (Checked new_price (float_ltb new_price stored_price))
        end
  end.

(* ================================================================== *)
(** ** Definitions used to state the properties *)
(* ================================================================== *)

(** The longest list that ends both [a] and [b]: the place of their
    nearest common ancestor. *)
Fixpoint common_suffix (a b : list nat) : list nat :=
  if decide (b `suffix_of` a) then b
  else match b with
       | [] => []
       | _ :: b' => common_suffix a b'
       end.


(** The characters [r] can consume all satisfy [P]. *)
Fixpoint chars_in (P : pychar -> Prop) (r : regex) : Prop :=
  match r with
  | Empty => True
  | Chr c => P c
  | Digit => forall c, isdecimal c = true -> P c
  | Space => forall c, isspace c = true -> P c
  | OneOf cs => Forall P cs
  | Cat r1 r2 => chars_in P r1 /\ chars_in P r2
  | Rep _ _ r1 | Star r1 | Opt r1 => chars_in P r1
  end.

(** A matcher that consumes only characters satisfying [P]. *)
Definition consumes (P : pychar -> Prop) {R : Type} (body : matcher R) : Prop :=
  forall s k x, body s k = Some x ->
    exists pre s', s = pre ++ s' /\ Forall P pre /\ k s' = Some x.

(** The characters of an amount: decimal digits, comma and dot. *)
Definition amount_char (c : pychar) : Prop :=
  isdecimal c = true \/ c = ch_comma \/ c = ch_dot.

(** The characters of an amount once its commas are removed. *)
Definition num_char (c : pychar) : Prop := isdecimal c = true \/ c = ch_dot.

(** The characters [float] reads them as. *)
Definition plain_char (c : pychar) : Prop :=
  is_ascii_digit c = true \/ c = ch_dot \/ c = ch_space.

(** [0 < x] *)
Definition float_positive (x : pyfloat) : Prop := float_ltb float_zero x = true.

(** A candidate of a positional strategy that passed the price test:
    the element, the text read from it and the price parsed. *)
Record priced := Priced { p_el : element; p_text : pystr; p_price : pyfloat }.

(** Every element matched by every selector of the pool with the text
    read from it, in the order the loops of [_try_selectors] meet them. *)
Definition selector_matches (soup : list node) : list (element * pystr) :=
  flat_map (fun '(sel, attr_type) =>
              map (fun el => (el, selector_raw attr_type el)) (select soup sel))
           _PRICE_SELECTORS.

(** The matches with a positive price. *)
Definition selector_survivor (m : element * pystr) : option priced :=
  match _extract_price_from_text m.2 with
  | Some price => if float_ltb float_zero price then Some (Priced m.1 m.2 price) else None
  | None => None
  end.

Definition selector_survivors (soup : list node) : list priced :=
  omap selector_survivor (selector_matches soup).

(** The nodes the proximity sweep considers: a visible tag without child
    tags whose text has between 1 and 30 characters. *)
Definition sweep_considers (el : element) : bool :=
  if bool_decide (tag_name el ∈ _SKIP) then false
  else if has_child_tags el then false
  else match get_text [ch_space] el with
       | [] => false
       | text => (length text <=? 30)%nat
       end.

(** The considered nodes with a price p, 0 < p < 1,000,000. *)
Definition sweep_survivor (el : element) : option priced :=
  if sweep_considers el
  then
    match _extract_price_from_text (get_text [ch_space] el) with
    | Some price =>
        if float_ltb float_zero price && float_ltb price (Finite 1000000 0)
        then Some (Priced el (get_text [ch_space] el) price) else None
    | None => None
    end
  else None.

Definition sweep_survivors (soup : list node) : list priced :=
  omap sweep_survivor (find_all_tags soup).

(** The step both loops take on a candidate that passed the price test. *)
Definition closest_step (anchor : option element) (st : best) (c : priced) : best :=
  keep_closest st (anchor_dist anchor (p_el c)) (p_price c) (_detect_currency (p_text c)).

(** The dict a positional strategy returns for a candidate. *)
Definition result_of (c : priced) : gmap string json :=
  {[ "price" := JFloat (p_price c); "currency" := JStr (_detect_currency (p_text c)) ]}.

(** The state of the loop after the candidates [cs]: nothing kept and
    every candidate at distance 10001 or more, or the first of the
    candidates nearest to the anchor kept, at a distance below 10001. *)
Definition closest_inv (anchor : option element) (cs : list priced) (st : best) : Prop :=
  match best_price st with
  | None =>
      best_dist st = 10001%Z /\
      forall c, c ∈ cs -> (10001 <= anchor_dist anchor (p_el c))%Z
  | Some price =>
      exists i c,
        cs !! i = Some c /\ price = p_price c /\
        best_currency st = _detect_currency (p_text c) /\
        best_dist st = anchor_dist anchor (p_el c) /\
        (anchor_dist anchor (p_el c) < 10001)%Z /\
        (forall c', c' ∈ cs -> (anchor_dist anchor (p_el c) <= anchor_dist anchor (p_el c'))%Z) /\
        (forall j c', (j < i)%nat -> cs !! j = Some c' ->
           (anchor_dist anchor (p_el c) < anchor_dist anchor (p_el c'))%Z)
  end.

(** An amount starts with a decimal digit. *)
Definition starts_with_digit (r : regex) : Prop :=
  exists r', r = Cat (Rep 1 6 Digit) r'.

(** The number a run of ASCII digits denotes. *)
Definition number_of (ds : pystr) : Z :=
  foldl (fun acc c => (10 * acc + Z.of_N (c - 48))%Z) 0%Z ds.




(** A text without blanks at either end. *)
Definition stripped (s : pystr) : Prop :=
  match s with [] => True | c :: _ => isspace c = false end /\
  match rev s with [] => True | c :: _ => isspace c = false end.

(** What [_try_json_ld] returns: the three keys, a float price, and a
    name that is [None] or a stripped text. *)
Definition json_ld_result (d : gmap string json) : Prop :=
  exists name price currency,
    d = {[ "name" := name; "price" := JFloat price; "currency" := currency ]} /\
    (name = JNull \/ exists s, name = JStr (strip s)).

(** The three currency codes [_detect_currency] returns. *)
Definition currency_codes : list pystr := [py "GBP"; py "EUR"; py "USD"].

(** What a positional strategy returns: a positive finite price and one
    of the three currency codes. *)
Definition positional_result (r : gmap string json) : Prop :=
  exists m e currency,
    r = {[ "price" := JFloat (Finite m e); "currency" := JStr currency ]} /\
    (0 < m)%Z /\ currency ∈ currency_codes.

(** Reads the four entities [_esc] writes back into their characters. *)
Fixpoint unescape (s : pystr) : pystr :=
  match s with
  | [] => []
  | c :: r =>
      if c =? 38 then
        match r with
        | 97 :: 109 :: 112 :: 59 :: r' => 38 :: unescape r'
        | 108 :: 116 :: 59 :: r' => 60 :: unescape r'
        | 103 :: 116 :: 59 :: r' => 62 :: unescape r'
        | 113 :: 117 :: 111 :: 116 :: 59 :: r' => 34 :: unescape r'
        | _ => c :: unescape r
        end
      else c :: unescape r
  end.

(** The characters that open or close a tag or an attribute value. *)
Definition markup_char (c : pychar) : Prop := c = 60 \/ c = 62 \/ c = 34.

(** *** Pages used as concrete inputs *)

Definition text (s : string) : node := Text NavigableString (py s).

(** A [<script type="application/ld+json">] block with the given JSON
    text (written with single quotes). *)
Definition ld_script (s : string) : node :=
  Tag (py "script") [(py "type", py "application/ld+json")] [Text Script (json_text s)].

(** A product page whose structured data gives the price "0". *)
Definition page_zero_price : list node :=
  [ Tag (py "html") []
      [ Tag (py "body") []
          [ Tag (py "h1") [] [text "Widget"];
            ld_script "{'@type':'Product','name':'Widget','offers':{'price':'0','priceCurrency':'USD'}}"
          ] ] ].

(** A product page whose structured data gives the price -5. *)
Definition page_negative_price : list node :=
  [ Tag (py "html") []
      [ Tag (py "body") []
          [ Tag (py "h1") [] [text "Widget"];
            ld_script "{'@type':'Product','name':'Widget','offers':{'price':-5,'priceCurrency':'USD'}}"
          ] ] ].

(** A product page whose structured data has a price and no name. *)
Definition page_no_name : list node :=
  [ Tag (py "html") []
      [ Tag (py "head") [] [ Tag (py "title") [] [text "Shop"] ];
        Tag (py "body") []
          [ Tag (py "h1") [] [text "Cool Gadget"];
            ld_script "{'@type':'Product','offers':{'price':'19.99','priceCurrency':'USD'}}"
          ] ] ].

(** A page without a heading: two prices in obfuscated markup. *)
Definition page_no_h1 : list node :=
  [ Tag (py "html") []
      [ Tag (py "body") []
          [ Tag (py "div") [(py "class", py "x1")]
              [ Tag (py "span") [(py "class", py "price")] [text "$7.00"] ];
            Tag (py "div") [(py "class", py "x2")] [text "$5.00"]
          ] ] ].

(** A page with two headings. *)
Definition page_two_h1 : list node :=
  [ Tag (py "html") []
      [ Tag (py "body") []
          [ Tag (py "div") [] [ Tag (py "h1") [] [text "First"] ];
            Tag (py "h1") [] [text "Second"]
          ] ] ].

(** The valid entries of the structured data, in document order: the
    blocks for which the loop of [_try_json_ld] reaches [append]. *)
Definition ld_entries (soup : list node) : list ld_entry :=
  omap (fun script =>
          match read_entry script with
          | Ok (Some e) => Some e
          | _ => None
          end) (ld_json_scripts soup).



(** The page of the first documented scenario. *)
Definition page_structured : list node :=
  [ Tag (py "html") []
      [ Tag (py "body") []
          [ ld_script "{'@type':'Product','name':'Widget','offers':{'price':'19.99','priceCurrency':'USD'},'url':'https://x/widget'}"
          ] ] ].

(** The page of the second documented scenario. *)
Definition page_selector : list node :=
  [ Tag (py "html") []
      [ Tag (py "body") []
          [ Tag (py "h1") [] [text "Cool Gadget"];
            Tag (py "div") [(py "class", py "product-price")] [text "$49.00"]
          ] ] ].



(** [n] nested [div]s around [inner]. *)
Fixpoint nest (n : nat) (inner : node) : node :=
  match n with
  | O => inner
  | S n' => Tag (py "div") [] [nest n' inner]
  end.

(** The page of the third documented scenario: a decoy price ten edges
    from the heading, and the price of the product three edges from it. *)
Definition page_decoy : list node :=
  [ Tag (py "html") []
      [ Tag (py "body") []
          [ Tag (py "aside") [] [ nest 6 (Tag (py "span") [] [text "$5.00"]) ];
            Tag (py "div") [(py "class", py "x9f")]
              [ Tag (py "h1") [] [text "Thing"];
                Tag (py "div") [(py "class", py "q2")] [ Tag (py "span") [] [text "$12.50"] ]
              ] ] ] ].




(* ================================================================== *)
(** ** The documented scenarios *)
(* ================================================================== *)

(** Closes a goal [t = v] by evaluating [t]. *)
Ltac by_evaluation :=
  lazymatch goal with
  | |- @eq ?T _ ?v => vm_cast_no_check (@eq_refl T v)
  end.

(** Structured data whose URL is the URL of the request. *)
Example scenario_structured_data :
  scrape_product (py "https://x/widget") (Some (py "<html>")) page_structured []
  = Ok (Some {[ "name" := JStr (py "Widget");
                "price" := JFloat (Finite 1999 (-2));
                "currency" := JStr (py "USD") ]}).
Proof. by_evaluation. Qed.

(** No structured data: a selector of the pool finds the price, the
    heading gives the name. *)
Example scenario_selector_fallback :
  scrape_product (py "https://x/gadget") (Some (py "<html>")) page_selector []
  = Ok (Some {[ "name" := JStr (py "Cool Gadget");
                "price" := JFloat (Finite 4900 (-2));
                "currency" := JStr (py "USD") ]}).
Proof. by_evaluation. Qed.

(** Obfuscated classes: the leaf three edges from the heading wins over
    the decoy ten edges away, which comes first in the document. *)
Example scenario_proximity_sweep :
  scrape_product (py "https://x/thing") (Some (py "<html>")) page_decoy []
  = Ok (Some {[ "name" := JStr (py "Thing");
                "price" := JFloat (Finite 1250 (-2));
                "currency" := JStr (py "USD") ]}) /\
  _try_selectors page_decoy None = None /\
  (anchor_dist (find page_decoy (py "h1")) <$> find_all page_decoy (py "span"))
  = [10%Z; 3%Z].
Proof. repeat split; by_evaluation. Qed.

(** No price anywhere, or nothing fetched: absence, without exception. *)
Example scenario_no_extraction :
  scrape_product (py "https://x/thing") (Some (py "<html>")) page_two_h1 [] = Ok None /\
  scrape_product (py "https://x/thing") None [] [] = Ok None.
Proof. split; by_evaluation. Qed.

(* ================================================================== *)
(** ** Properties: the DOM distance *)
(* ================================================================== *)

Section distance.
Implicit Types a b c k : list nat.
Local Open Scope Z_scope.

Lemma ancestor_depths_lookup a (depth : Z) (m : gmap (list nat) Z) k :
  ancestor_depths a depth m !! k =
    if decide (k `suffix_of` a)
    then Some (depth + (Z.of_nat (length a) - Z.of_nat (length k)))
    else m !! k.
Proof.
  revert depth m. induction a as [|x a IH]; intros depth m; simpl.
  - destruct (decide (k `suffix_of` [])) as [Hs|Hs].
    + apply suffix_nil_inv in Hs as ->. rewrite lookup_insert_eq. f_equal. simpl. lia.
    + rewrite lookup_insert_ne; [done|]. intros <-. apply Hs, suffix_nil.
  - rewrite IH. destruct (decide (k `suffix_of` a)) as [Hs|Hs].
    + rewrite decide_True by (by apply suffix_cons_r).
      f_equal. apply suffix_length in Hs. lia.
    + destruct (decide (k = x :: a)) as [->|Hne].
      * rewrite lookup_insert_eq, decide_True by done. f_equal. simpl. lia.
      * rewrite lookup_insert_ne by done.
        rewrite decide_False; [done|]. intros Hs'.
        destruct k as [|y k]; [by apply Hs, suffix_nil|].
        apply suffix_cons_inv in Hs' as [?|?]; done.
Qed.

Lemma common_suffix_unfold a b :
  common_suffix a b =
    if decide (b `suffix_of` a) then b
    else match b with
         | [] => []
         | _ :: b' => common_suffix a b'
         end.
Proof. by destruct b. Qed.

Lemma common_suffix_l a b : common_suffix a b `suffix_of` a.
Proof.
  induction b as [|x b IH]; rewrite common_suffix_unfold;
    destruct (decide _); try done. apply suffix_nil.
Qed.

Lemma common_suffix_r a b : common_suffix a b `suffix_of` b.
Proof.
  induction b as [|x b IH]; rewrite common_suffix_unfold;
    destruct (decide _); try done.
  by apply suffix_cons_r.
Qed.

Lemma common_suffix_greatest a b c :
  c `suffix_of` a → c `suffix_of` b → c `suffix_of` common_suffix a b.
Proof.
  intros Ha. induction b as [|x b IH]; rewrite common_suffix_unfold;
    intros Hb; destruct (decide _); try done.
  destruct c as [|y c]; [apply suffix_nil|].
  apply suffix_cons_inv in Hb as [Heq|Hb]; [|by apply IH].
  by rewrite Heq in Ha.
Qed.

Lemma common_suffix_comm a b : common_suffix a b = common_suffix b a.
Proof.
  apply (anti_symm suffix);
    apply common_suffix_greatest;
    auto using common_suffix_l, common_suffix_r.
Qed.

Lemma first_common_spec a b (depth : Z) :
  first_common (ancestor_depths a 0 ∅) b depth =
    depth + (Z.of_nat (length a) - Z.of_nat (length (common_suffix a b)))
          + (Z.of_nat (length b) - Z.of_nat (length (common_suffix a b))).
Proof.
  revert depth. induction b as [|x b IH]; intros depth;
    rewrite common_suffix_unfold; simpl;
    rewrite ancestor_depths_lookup; destruct (decide _) as [Hs|Hs]; simpl; try lia.
  - by destruct Hs; apply suffix_nil.
  - rewrite lookup_empty, IH. lia.
Qed.

(** The distance is the number of edges from each of the two nodes up
    to their nearest common ancestor. *)
Lemma _dom_distance_eq (el_a el_b : element) :
  _dom_distance el_a el_b =
    Z.of_nat (length (tag_position el_a)) + Z.of_nat (length (tag_position el_b))
    - 2 * Z.of_nat (length (common_suffix (tag_position el_a) (tag_position el_b))).
Proof. unfold _dom_distance. rewrite first_common_spec. lia. Qed.

Lemma _dom_distance_nonneg (el_a el_b : element) : 0 ≤ _dom_distance el_a el_b.
Proof.
  rewrite _dom_distance_eq.
  pose proof (suffix_length _ _ (common_suffix_l (tag_position el_a) (tag_position el_b))).
  pose proof (suffix_length _ _ (common_suffix_r (tag_position el_a) (tag_position el_b))).
  lia.
Qed.

(** C8. The DOM distance is symmetric: for every two nodes A and B of
    a tree, distance(A, B) = distance(B, A). *)
Theorem C8_dom_distance_symmetric (A B : element) :
  _dom_distance A B = _dom_distance B A.
Proof.
  rewrite !_dom_distance_eq.
  rewrite (common_suffix_comm (tag_position A) (tag_position B)). lia.
Qed.

(** The sentinel for disconnected nodes is never returned: the root is
    above every node. *)
Lemma _dom_distance_connected (el_a el_b : element) :
  _dom_distance el_a el_b
    ≤ Z.of_nat (length (tag_position el_a)) + Z.of_nat (length (tag_position el_b)).
Proof. rewrite _dom_distance_eq. lia. Qed.
End distance.

(* ================================================================== *)
(** ** Properties: the price text parser *)
(* ================================================================== *)

Section regex.
Context (P : pychar -> Prop).

Lemma consumes_nil {R : Type} (k : pystr -> option R) s x :
  k s = Some x -> exists pre s', s = pre ++ s' /\ Forall P pre /\ k s' = Some x.
Proof. intros. exists [], s. auto. Qed.

Lemma consumes_cons {R : Type} (k : pystr -> option R) c s x :
  P c -> k s = Some x ->
  exists pre s', c :: s = pre ++ s' /\ Forall P pre /\ k s' = Some x.
Proof. intros. exists [c], s. auto. Qed.

Lemma consumes_app {R : Type} (k : pystr -> option R) pre s x :
  Forall P pre ->
  (exists pre' s', s = pre' ++ s' /\ Forall P pre' /\ k s' = Some x) ->
  exists pre' s', pre ++ s = pre' ++ s' /\ Forall P pre' /\ k s' = Some x.
Proof.
  intros Hpre (pre' & s' & -> & Hpre' & Hk).
  exists (pre ++ pre'), s'. rewrite (assoc_L (++)).
  split_and!; [done| |done]. by apply Forall_app.
Qed.

Lemma star_loop_consumes {R : Type} (body : matcher R) k :
  consumes P body ->
  forall fuel s x, star_loop body k fuel s = Some x ->
    exists pre s', s = pre ++ s' /\ Forall P pre /\ k s' = Some x.
Proof.
  intros Hbody. induction fuel as [|fuel IH]; intros s x; simpl.
  - apply consumes_nil.
  - destruct (body s _) as [y|] eqn:Hb; [|apply consumes_nil].
    intros [= ->]. apply Hbody in Hb as (pre & s1 & -> & Hpre & Hk).
    apply consumes_app; [done|].
    destruct (_ <? _)%nat; [by apply IH|done].
Qed.

Lemma rep_loop_consumes {R : Type} (body : matcher R) k :
  consumes P body ->
  forall hi lo s x, rep_loop body k lo hi s = Some x ->
    exists pre s', s = pre ++ s' /\ Forall P pre /\ k s' = Some x.
Proof.
  intros Hbody. induction hi as [|hi IH]; intros lo s x; simpl.
  - destruct lo; [apply consumes_nil|done].
  - destruct (body s _) as [y|] eqn:Hb.
    + intros [= ->]. apply Hbody in Hb as (pre & s1 & -> & Hpre & Hk).
      apply consumes_app; [done|]. by eapply IH.
    + destruct lo; [apply consumes_nil|done].
Qed.

Lemma rmatch_consumes (r : regex) :
  chars_in P r -> forall R : Type, consumes P (@rmatch R r).
Proof.
  induction r as [|c| | |cs|r1 IH1 r2 IH2|lo hi r1 IH|r1 IH|r1 IH];
    simpl; intros Hr R s k x.
  - apply consumes_nil.
  - destruct s as [|c' s]; [done|]. destruct (N.eqb_spec c' c) as [->|]; [|done].
    by apply consumes_cons.
  - destruct s as [|c' s]; [done|]. destruct (isdecimal c') eqn:Hc; [|done].
    apply consumes_cons; auto.
  - destruct s as [|c' s]; [done|]. destruct (isspace c') eqn:Hc; [|done].
    apply consumes_cons; auto.
  - destruct s as [|c' s]; [done|]. destruct (existsb (N.eqb c') cs) eqn:Hc; [|done].
    apply consumes_cons. apply existsb_exists in Hc as (c & Hin & ->%N.eqb_eq).
    rewrite Forall_forall in Hr. apply Hr. by apply list_elem_of_In.
  - destruct Hr as [Hr1 Hr2]. intros Hm.
    apply (IH1 Hr1) in Hm as (pre & s1 & -> & Hpre & Hm).
    apply consumes_app; [done|]. by apply (IH2 Hr2) in Hm.
  - apply rep_loop_consumes. by apply IH.
  - apply star_loop_consumes. by apply IH.
  - destruct (rmatch r1 s k) as [y|] eqn:Hm; [|apply consumes_nil].
    intros [= ->]. by apply (IH Hr) in Hm.
Qed.
End regex.

Lemma chars_in_any (r : regex) : chars_in (fun _ => True) r.
Proof.
  induction r; simpl; auto. by apply Forall_forall.
Qed.

Lemma match_at_captured (P : pychar -> Prop) (p : pattern) s g :
  chars_in P (captured p) -> match_at p s = Some g -> Forall P g.
Proof.
  intros Hc Hm. unfold match_at in Hm.
  apply (rmatch_consumes _ _ (chars_in_any _)) in Hm as (pre0 & s1 & -> & _ & Hm).
  apply (rmatch_consumes P _ Hc) in Hm as (pre & s2 & -> & Hpre & Hm).
  apply (rmatch_consumes _ _ (chars_in_any _)) in Hm as (pre2 & s3 & -> & _ & Hm).
  injection Hm as <-. rewrite length_app.
  replace (length pre + length (pre2 ++ s3) - length (pre2 ++ s3))%nat
    with (length pre) by lia.
  by rewrite take_app_length.
Qed.

Lemma re_search_captured (P : pychar -> Prop) (p : pattern) s g :
  chars_in P (captured p) -> re_search p s = Some g -> Forall P g.
Proof.
  intros Hc. induction s as [|c s IH]; simpl;
    destruct (match_at p _) as [g'|] eqn:Hm; try done;
    intros [= ->]; by eapply match_at_captured.
Qed.

Lemma decimal_zeros_ascii z :
  In z decimal_zeros -> z = 48 \/ 1632 <= z.
Proof.
  intros Hin.
  assert (Hall : forallb (fun z => (z =? 48) || (1632 <=? z)) decimal_zeros = true)
    by (vm_compute; reflexivity).
  rewrite forallb_forall in Hall. apply Hall in Hin.
  apply orb_prop in Hin as [?%N.eqb_eq|?%N.leb_le]; auto.
Qed.

Lemma decimal_value_spec c d :
  decimal_value c = Some d -> d < 10 /\ (c < 127 -> is_ascii_digit c = true).
Proof.
  unfold decimal_value.
  destruct (List.find (fun z => (z <=? c) && (c <? z + 10)) decimal_zeros) as [z|] eqn:Hf;
    [|done].
  intros [= <-]. apply find_some in Hf as [Hin Hz].
  apply andb_prop in Hz as [Hz1%N.leb_le Hz2%N.ltb_lt].
  split; [lia|]. intros Hc.
  apply decimal_zeros_ascii in Hin.
  unfold is_ascii_digit. apply andb_true_intro. split; apply N.leb_le; lia.
Qed.

Lemma to_ascii_number_plain c : num_char c -> plain_char (to_ascii_number c).
Proof.
  unfold num_char, plain_char, to_ascii_number, isdecimal.
  intros [Hd| ->]; [|by right; left].
  destruct (decimal_value c) as [d|] eqn:Hv; [|done].
  apply decimal_value_spec in Hv as [Hlt Hascii].
  destruct (N.ltb_spec c 127); [by left; apply Hascii|].
  destruct (isspace c); [by right; right|]. left.
  unfold is_ascii_digit. apply andb_true_intro. split; apply N.leb_le; lia.
Qed.

Lemma lstrip_ascii_Forall (P : pychar -> Prop) s : Forall P s -> Forall P (lstrip_ascii s).
Proof.
  induction 1 as [|c s Hc Hs IH]; simpl; [done|].
  destruct (is_ascii_space c); [done|]. by constructor.
Qed.

Lemma plain_char_cases c :
  plain_char c -> (46 <= c /\ c <= 57) \/ c = 32.
Proof.
  unfold plain_char, is_ascii_digit, ch_dot, ch_space.
  intros [[?%N.leb_le ?%N.leb_le]%andb_prop|[->| ->]]; lia.
Qed.

Lemma drop_underscores_plain prev s :
  prev <> 95 -> Forall plain_char s -> drop_underscores prev s = Some s.
Proof.
  intros Hprev Hs. revert prev Hprev.
  induction Hs as [|c s Hc Hs IH]; intros prev Hprev; simpl.
  - by destruct (N.eqb_spec prev 95).
  - apply plain_char_cases in Hc.
    destruct (N.eqb_spec c 95); [lia|].
    destruct (N.eqb_spec prev 95); [done|]. simpl.
    rewrite IH by lia. done.
Qed.

Lemma lower_ascii_plain s : Forall plain_char s -> lower_ascii s = s.
Proof.
  induction 1 as [|c s Hc Hs IH]; simpl; [done|]. rewrite IH. f_equal.
  apply plain_char_cases in Hc.
  destruct (N.leb_spec 65 c); [|done]. lia.
Qed.

Lemma take_digits_nonneg s (acc : Z) n :
  (0 <= acc)%Z -> (0 <= (take_digits s acc n).1.1)%Z.
Proof.
  revert acc n. induction s as [|c s IH]; intros acc n Hacc; simpl; [done|].
  destruct (is_ascii_digit c); [|done]. apply IH. lia.
Qed.

Lemma take_fraction_nonneg s (ip : Z) :
  (0 <= ip)%Z -> (0 <= (take_fraction s ip).1.1)%Z.
Proof.
  intros Hip. destruct s as [|c r]; simpl; [done|].
  destruct (c =? 46); [by apply take_digits_nonneg|done].
Qed.

Lemma plain_not_special s w :
  Forall plain_char s -> w ∈ [py "inf"; py "infinity"; py "nan"] -> s <> w.
Proof.
  intros Hs Hw ->.
  repeat (apply elem_of_cons in Hw as [->|Hw];
          [apply Forall_cons in Hs as [Hc%plain_char_cases _]; vm_compute in Hc;
           destruct Hc as [[H1 H2]|H1]; [by destruct H2|done]|]).
  by apply elem_of_nil in Hw.
Qed.

Lemma parse_float_plain s x :
  Forall plain_char s -> parse_float s = Some x ->
  exists m e, x = Finite m e /\ (0 <= m)%Z.
Proof.
  intros Hs. unfold parse_float.
  assert (Hsign : take_sign s = (false, s)).
  { destruct Hs as [|c s Hc Hs]; [done|]. simpl.
    apply plain_char_cases in Hc.
    destruct (N.eqb_spec c 45); [lia|]. destruct (N.eqb_spec c 43); [lia|]. done. }
  rewrite Hsign, lower_ascii_plain by done.
  rewrite !bool_decide_eq_false_2
    by (apply plain_not_special; [done|]; repeat constructor).
  simpl.
  pose proof (take_digits_nonneg s 0 0 ltac:(done)) as Hip.
  destruct (take_digits s 0 0) as [[ip ni] s2]. simpl in Hip.
  pose proof (take_fraction_nonneg s2 ip Hip) as Hm.
  destruct (take_fraction s2 ip) as [[m nf] s3]. simpl in Hm.
  destruct (ni + nf =? 0)%nat; [done|].
  destruct s3 as [|c r]; [intros [= <-]; by eauto|].
  destruct (_ || _); [|done].
  destruct (take_sign r) as [eneg r1].
  destruct (take_digits r1 0 0) as [[ev ne] r2].
  destruct ne; [done|]. destruct r2; [|done].
  intros [= <-]. by eauto.
Qed.

Lemma float_of_str_num raw x :
  Forall num_char raw -> float_of_str raw = Some x ->
  exists m e, x = Finite m e /\ (0 <= m)%Z.
Proof.
  intros Hraw. unfold float_of_str.
  set (s := rev (lstrip_ascii (rev (lstrip_ascii (map to_ascii_number raw))))).
  assert (Hs : Forall plain_char s).
  { apply Forall_rev, lstrip_ascii_Forall, Forall_rev, lstrip_ascii_Forall.
    apply Forall_map. eapply Forall_impl; [done|]. apply to_ascii_number_plain. }
  rewrite drop_underscores_plain by done. simpl. by apply parse_float_plain.
Qed.

Lemma replace_char_Forall (P : pychar -> Prop) old new s :
  Forall P new -> Forall (fun c => c <> old -> P c) s ->
  Forall P (replace_char old new s).
Proof.
  intros Hnew. unfold replace_char.
  induction 1 as [|c s Hc Hs IH]; simpl; [done|].
  apply Forall_app. split; [|done].
  destruct (N.eqb_spec c old); [done|]. constructor; auto.
Qed.

Lemma chars_in_amounts :
  Forall (fun p => chars_in amount_char (captured p)) _PRICE_PATTERNS.
Proof.
  assert (Hd : forall c, isdecimal c = true -> amount_char c) by (intros; by left).
  assert (Hcomma : amount_char ch_comma) by (right; by left).
  assert (Hdot : amount_char ch_dot) by (right; by right).
  assert (Hboth : Forall amount_char [ch_dot; ch_comma])
    by (repeat apply Forall_cons_2; auto using Forall_nil_2).
  unfold _PRICE_PATTERNS, re_amount, re_amount_euro, re_amount_bare.
  repeat apply Forall_cons_2; try apply Forall_nil_2;
    cbn [chars_in captured]; split_and!; assumption.
Qed.

(** The parser returns finite, non-negative prices. *)
Lemma first_price_finite patterns text x :
  Forall (fun p => chars_in amount_char (captured p)) patterns ->
  first_price patterns text = Some x ->
  exists m e, x = Finite m e /\ (0 <= m)%Z.
Proof.
  induction 1 as [|p patterns Hp Hps IH]; simpl; [done|].
  destruct (re_search p text) as [g|] eqn:Hg; [|done].
  apply (re_search_captured amount_char) in Hg; [|done].
  set (raw := replace_char ch_comma [] g).
  assert (Hraw : Forall num_char raw).
  { apply replace_char_Forall; [done|].
    eapply Forall_impl; [exact Hg|]. intros c [?|[?|?]] ?; [by left|done|by right]. }
  match goal with
  | |- context [float_of_str ?r] =>
      assert (Hr : Forall num_char r); [|destruct (float_of_str r) as [y|] eqn:Hf]
  end.
  - destruct (_ <? _)%nat; [|done].
    apply replace_char_Forall; [by repeat constructor; right|].
    eapply Forall_impl.
    + apply (replace_char_Forall num_char ch_dot []); [done|].
      eapply Forall_impl; [exact Hraw|]. auto.
    + auto.
  - intros [= <-]. by eapply float_of_str_num.
  - done.
Qed.

Lemma _extract_price_from_text_finite text x :
  _extract_price_from_text text = Some x ->
  exists m e, x = Finite m e /\ (0 <= m)%Z.
Proof.
  unfold _extract_price_from_text. destruct text; [done|].
  apply first_price_finite, chars_in_amounts.
Qed.

Lemma float_Q_sign (m e : Z) :
  Qcompare (float_Q 0 0) (float_Q m e) = Z.compare 0 m.
Proof.
  unfold Qcompare, float_Q.
  destruct e as [|p|p]; cbn [Qnum Qden inject_Z]; rewrite ?Z.mul_1_r; try done.
  assert (0 < 10 ^ Z.pos p)%Z by (apply Z.pow_pos_nonneg; lia).
  destruct (Z.compare_spec 0 m), (Z.compare_spec 0 (m * 10 ^ Z.pos p)); try done; nia.
Qed.

Lemma float_Q_sign_r (m e : Z) :
  Qcompare (float_Q m e) (float_Q 0 0) = Z.compare m 0.
Proof.
  rewrite <-Qcompare_antisym, float_Q_sign. symmetry. apply Z.compare_antisym.
Qed.

(** For the prices the parser returns, the test of [_try_selectors]
    ([not price or price <= 0]) rejects exactly the prices that are not
    positive. *)
Lemma selector_test_positive text x :
  _extract_price_from_text text = Some x ->
  negb (float_truthy x) || float_leb x float_zero = negb (float_ltb float_zero x).
Proof.
  intros Hx. apply _extract_price_from_text_finite in Hx as (m & e & -> & Hm).
  unfold float_truthy, float_leb, float_ltb, float_zero.
  rewrite float_Q_sign, float_Q_sign_r.
  destruct m as [|p|p]; [done|done|lia].
Qed.

(* ================================================================== *)
(** ** Properties: the loops of the positional strategies *)
(* ================================================================== *)

Section closest.
Context (anchor : option element).
Local Open Scope Z_scope.

Lemma closest_inv_init : closest_inv anchor [] best_init.
Proof. split; [done|]. by intros c ?%elem_of_nil. Qed.

Lemma closest_inv_step cs st c :
  closest_inv anchor cs st ->
  closest_inv anchor (cs ++ [c]) (closest_step anchor st c).
Proof.
  unfold closest_inv, closest_step, keep_closest.
  destruct (best_price st) as [price|] eqn:Hprice.
  - intros (i & c0 & Hi & -> & Hcur & Hdist & Hlt & Hmin & Hfirst).
    destruct (Z.ltb_spec (anchor_dist anchor (p_el c)) (best_dist st)) as [Hc|Hc]; simpl.
    + exists (length cs), c. rewrite lookup_app_r, Nat.sub_diag by done.
      split_and!; try done; [lia| |].
      * intros c' [Hc'|Hc']%elem_of_app;
          [|by apply list_elem_of_singleton in Hc' as ->].
        apply Hmin in Hc'. lia.
      * intros j c' Hj Hc'. rewrite lookup_app_l in Hc' by done.
        apply list_elem_of_lookup_2, Hmin in Hc'. lia.
    + rewrite Hprice. exists i, c0.
      split_and!; try done.
      * by apply lookup_app_l_Some.
      * intros c' [Hc'|Hc']%elem_of_app; [by apply Hmin|].
        apply list_elem_of_singleton in Hc' as ->. lia.
      * intros j c' Hj Hc'. apply (Hfirst j); [done|].
        rewrite lookup_app_l in Hc'; [done|]. apply lookup_lt_Some in Hi. lia.
  - intros [Hdist Hfar]. rewrite Hdist.
    destruct (Z.ltb_spec (anchor_dist anchor (p_el c)) 10001) as [Hc|Hc]; simpl.
    + exists (length cs), c. rewrite lookup_app_r, Nat.sub_diag by done.
      split_and!; try done.
      * intros c' [Hc'|Hc']%elem_of_app;
          [|by apply list_elem_of_singleton in Hc' as ->].
        apply Hfar in Hc'. lia.
      * intros j c' Hj Hc'. rewrite lookup_app_l in Hc' by done.
        apply list_elem_of_lookup_2, Hfar in Hc'. lia.
    + rewrite Hprice. split; [done|].
      intros c' [Hc'|Hc']%elem_of_app; [by apply Hfar|].
      by apply list_elem_of_singleton in Hc' as ->.
Qed.

Lemma closest_inv_foldl cs' cs st :
  closest_inv anchor cs st ->
  closest_inv anchor (cs ++ cs') (foldl (closest_step anchor) st cs').
Proof.
  revert cs st. induction cs' as [|c cs' IH]; intros cs st Hinv; simpl.
  - by rewrite app_nil_r.
  - rewrite (cons_middle c cs cs'), (assoc_L (++)).
    by apply IH, closest_inv_step.
Qed.

(** What a loop over the candidates [cs] returns. *)
Lemma closest_result cs :
  match best_result (foldl (closest_step anchor) best_init cs) with
  | Some r =>
      exists i c,
        cs !! i = Some c /\ r = result_of c /\
        anchor_dist anchor (p_el c) < 10001 /\
        (forall c', c' ∈ cs -> anchor_dist anchor (p_el c) <= anchor_dist anchor (p_el c')) /\
        (forall j c', (j < i)%nat -> cs !! j = Some c' ->
           anchor_dist anchor (p_el c) < anchor_dist anchor (p_el c'))
  | None => forall c, c ∈ cs -> 10001 <= anchor_dist anchor (p_el c)
  end.
Proof.
  pose proof (closest_inv_foldl cs [] best_init closest_inv_init) as Hinv.
  simpl in Hinv. unfold closest_inv in Hinv. unfold best_result.
  destruct (best_price _) as [price|].
  - destruct Hinv as (i & c & Hi & -> & Hcur & _ & Hlt & Hmin & Hfirst).
    exists i, c. unfold result_of. rewrite Hcur. done.
  - by destruct Hinv.
Qed.

(** A loop step that passes over the items without a candidate. *)
Lemma foldl_omap_closest {A : Type} (f : A -> option priced) (step : best -> A -> best) :
  (forall st a, step st a = match f a with
                            | Some c => closest_step anchor st c
                            | None => st
                            end) ->
  forall l st, foldl step st l = foldl (closest_step anchor) st (omap f l).
Proof.
  intros Hstep. induction l as [|a l IH]; intros st; simpl; [done|].
  rewrite Hstep, IH. by destruct (f a).
Qed.
End closest.

Lemma selector_step_survivor anchor attr_type st el :
  selector_step anchor attr_type st el =
    match selector_survivor (el, selector_raw attr_type el) with
    | Some c => closest_step anchor st c
    | None => st
    end.
Proof.
  unfold selector_step, selector_survivor. cbn [fst snd].
  destruct (_extract_price_from_text _) as [price|] eqn:Hprice; [|done].
  rewrite (selector_test_positive _ _ Hprice).
  by destruct (float_ltb float_zero price).
Qed.

Lemma sweep_step_survivor anchor st el :
  sweep_step anchor st el =
    match sweep_survivor el with
    | Some c => closest_step anchor st c
    | None => st
    end.
Proof.
  unfold sweep_step, sweep_survivor, sweep_considers.
  destruct (bool_decide (tag_name el ∈ _SKIP)); [done|].
  destruct (has_child_tags el); [done|].
  destruct (get_text [ch_space] el) as [|c text] eqn:Htext; [done|].
  rewrite Nat.ltb_antisym.
  destruct (_ <=? 30)%nat; [|done]. simpl negb. cbv iota.
  destruct (_extract_price_from_text _) as [price|] eqn:Hprice; [|done].
  destruct (float_ltb float_zero price) eqn:Hpos; simpl.
  - assert (float_truthy price = true) as ->.
    { apply _extract_price_from_text_finite in Hprice as (m & e & -> & Hm).
      unfold float_ltb, float_zero in Hpos. rewrite float_Q_sign in Hpos.
      unfold float_truthy. by destruct m. }
    simpl. by destruct (float_ltb price _).
  - by rewrite orb_true_r.
Qed.

Lemma foldl_selector_pool anchor soup (pool : list (selector * pystr)) st :
  foldl (fun st '(sel, attr_type) =>
           foldl (selector_step anchor attr_type) st (select soup sel)) st pool =
  foldl (closest_step anchor) st
    (omap selector_survivor
       (flat_map (fun '(sel, attr_type) =>
                    map (fun el => (el, selector_raw attr_type el)) (select soup sel)) pool)).
Proof.
  revert st. induction pool as [|[sel attr_type] pool IH]; intros st; simpl; [done|].
  rewrite omap_app, foldl_app, IH. f_equal.
  generalize (select soup sel). intros els. revert st.
  induction els as [|el els IHels]; intros st; simpl; [done|].
  rewrite IHels, selector_step_survivor. by destruct (selector_survivor _).
Qed.

(** [_try_selectors] is the loop over the candidates with a positive
    price, in pool order. *)
Lemma _try_selectors_fold soup anchor :
  _try_selectors soup anchor =
    best_result (foldl (closest_step (anchor_or_h1 soup anchor)) best_init
                   (selector_survivors soup)).
Proof. unfold _try_selectors. by rewrite foldl_selector_pool. Qed.

(** [_try_proximity_sweep] is the loop over the considered nodes with a
    price in range, in document order. *)
Lemma _try_proximity_sweep_fold soup anchor :
  _try_proximity_sweep soup anchor =
    best_result (foldl (closest_step (anchor_or_h1 soup anchor)) best_init
                   (sweep_survivors soup)).
Proof.
  unfold _try_proximity_sweep, sweep_survivors.
  by rewrite (foldl_omap_closest _ sweep_survivor _ (sweep_step_survivor _)).
Qed.

Lemma elem_of_selector_survivors soup c :
  c ∈ selector_survivors soup <->
  exists sel attr_type,
    (sel, attr_type) ∈ _PRICE_SELECTORS /\
    p_el c ∈ select soup sel /\
    p_text c = selector_raw attr_type (p_el c) /\
    _extract_price_from_text (p_text c) = Some (p_price c) /\
    float_positive (p_price c).
Proof.
  unfold selector_survivors, selector_matches. rewrite list_elem_of_omap. split.
  - intros ([el raw] & Hin & Hs).
    apply list_elem_of_In, in_flat_map in Hin as ([sel attr_type] & Hpool & Hin).
    apply list_elem_of_In, list_elem_of_fmap in Hin as (el' & [= -> ->] & Hel).
    unfold selector_survivor in Hs. simpl in Hs.
    destruct (_extract_price_from_text _) as [price|] eqn:Hprice; [|done].
    destruct (float_ltb float_zero price) eqn:Hpos; [|done].
    injection Hs as <-. exists sel, attr_type. simpl.
    split_and!; try done. by apply list_elem_of_In.
  - intros (sel & attr_type & Hpool & Hel & Htext & Hprice & Hpos).
    exists (p_el c, p_text c). split.
    + apply list_elem_of_In, in_flat_map. exists (sel, attr_type).
      split; [by apply list_elem_of_In|].
      apply list_elem_of_In, list_elem_of_fmap. exists (p_el c). by rewrite Htext.
    + unfold selector_survivor. simpl. rewrite Hprice, Hpos. by destruct c.
Qed.

Lemma sweep_considers_spec el :
  sweep_considers el = true <->
  (tag_name el ∉ _SKIP) /\ has_child_tags el = false /\
  (1 <= length (get_text [ch_space] el) <= 30)%nat.
Proof.
  unfold sweep_considers.
  destruct (bool_decide_reflect (tag_name el ∈ _SKIP)) as [Hskip|Hskip];
    [by split; [|intros [? _]]|].
  destruct (has_child_tags el); [by split; [|intros (_ & ? & _)]|].
  destruct (get_text [ch_space] el) as [|c text].
  - split; [done|]. intros (_ & _ & ? & _). simpl in *. lia.
  - cbv iota. rewrite Nat.leb_le. simpl length. split.
    + intros ?. split_and!; [done|done|lia|done].
    + intros (_ & _ & _ & ?). done.
Qed.

Lemma elem_of_sweep_survivors soup c :
  c ∈ sweep_survivors soup <->
  p_el c ∈ find_all_tags soup /\
  (tag_name (p_el c) ∉ _SKIP) /\
  has_child_tags (p_el c) = false /\
  p_text c = get_text [ch_space] (p_el c) /\
  (1 <= length (p_text c) <= 30)%nat /\
  _extract_price_from_text (p_text c) = Some (p_price c) /\
  float_positive (p_price c) /\
  float_ltb (p_price c) (Finite 1000000 0) = true.
Proof.
  unfold sweep_survivors. rewrite list_elem_of_omap.
  unfold sweep_survivor, float_positive. split.
  - intros (el & Hin & Hs).
    destruct (sweep_considers el) eqn:Hcons; [|done].
    apply sweep_considers_spec in Hcons as (Hskip & Hchild & Hlen).
    destruct (_extract_price_from_text _) as [price|] eqn:Hprice; [|done].
    destruct (float_ltb float_zero price) eqn:Hpos; [|done].
    destruct (float_ltb price _) eqn:Hmax; [|done].
    simpl in Hs. injection Hs as <-. simpl. split_and!; try done; lia.
  - intros (Hin & Hskip & Hchild & Htext & Hlen & Hprice & Hpos & Hmax).
    exists (p_el c). split; [done|]. rewrite <-Htext.
    assert (sweep_considers (p_el c) = true) as ->.
    { apply sweep_considers_spec. by rewrite <-Htext. }
    rewrite Hprice, Hpos, Hmax. simpl. by destruct c.
Qed.

(* ================================================================== *)
(** ** Properties: the price text parser on the documented examples *)
(* ================================================================== *)

(** C2. The price text parser on the three documented inputs:
    "$1,234.56" gives 1234.56 with currency USD and "£999.99" gives
    999.99 with currency GBP, but "€1.234,56" gives 1.23456 (with
    currency EUR), not 1234.56: the commas are removed before the dots
    are counted, so the captured "1.234,56" becomes "1.23456", which
    has a single dot, and the European normalization is not applied. *)
Theorem C2_price_text_examples :
  _extract_price_from_text (py "$1,234.56") = Some (Finite 123456 (-2)) /\
  _detect_currency (py "$1,234.56") = py "USD" /\
  _extract_price_from_text (py "£999.99") = Some (Finite 99999 (-2)) /\
  _detect_currency (py "£999.99") = py "GBP" /\
  _extract_price_from_text (py "€1.234,56") = Some (Finite 123456 (-5)) /\
  _detect_currency (py "€1.234,56") = py "EUR" /\
  float_ltb (Finite 123456 (-5)) (Finite 123456 (-2)) = true.
Proof. repeat split; vm_compute; reflexivity. Qed.

(** The group captured from "€1.234,56" and what the two replacements
    make of it. *)
Lemma euro_example_trace :
  re_search (Pattern (Cat (Chr ch_euro) (Star Space)) re_amount_euro Empty)
    (py "€1.234,56") = Some (py "1.234,56") /\
  replace_char ch_comma [] (py "1.234,56") = py "1.23456" /\
  count_char ch_dot (py "1.23456") = 1%nat.
Proof. repeat split; vm_compute; reflexivity. Qed.

(* ================================================================== *)
(** ** Properties: [scrape_product] *)
(* ================================================================== *)

(** C1. The structured-data strategy does not test the sign of the
    price: on a page whose JSON-LD Product gives the price "0",
    [scrape_product] returns a result with price 0, and on one that
    gives -5 a result with price -5; neither is positive. *)
Theorem C1_json_ld_price_not_positive :
  scrape_product (py "https://shop.example/widget") (Some (py "<html>"))
    page_zero_price []
  = Ok (Some {[ "name" := JStr (py "Widget");
                "price" := JFloat (Finite 0 0);
                "currency" := JStr (py "USD") ]}) /\
  scrape_product (py "https://shop.example/widget") (Some (py "<html>"))
    page_negative_price []
  = Ok (Some {[ "name" := JStr (py "Widget");
                "price" := JFloat (Finite (-5) 0);
                "currency" := JStr (py "USD") ]}) /\
  float_ltb float_zero (Finite 0 0) = false /\
  float_ltb float_zero (Finite (-5) 0) = false.
Proof. repeat split; by_evaluation. Qed.

(** C4. When the chosen JSON-LD Product has no name, the result of
    [scrape_product] keeps the name [None]: the dict [_try_json_ld]
    returns always has the key "name", so [setdefault] leaves it as it
    is and the title the title extractor finds is not used. *)
Theorem C4_missing_name_stays_none :
  scrape_product (py "https://shop.example/gadget") (Some (py "<html>"))
    page_no_name []
  = Ok (Some {[ "name" := JNull;
                "price" := JFloat (Finite 1999 (-2));
                "currency" := JStr (py "USD") ]}) /\
  _extract_title page_no_name = py "Cool Gadget".
Proof. split; by_evaluation. Qed.

(** The same on every page: [setdefault("name", ...)] never changes what
    [_try_json_ld] returned. *)
Lemma _try_json_ld_has_name soup page_url d title :
  _try_json_ld soup page_url = Ok (Some d) -> setdefault "name" title d = d.
Proof.
  unfold _try_json_ld. destruct (request_path page_url) as [page_path|]; [|done]. simpl.
  destruct (ld_candidates _ _) as [|first rest]; [done|].
  intros [= <-]. unfold setdefault, ld_result.
  by rewrite lookup_insert_eq.
Qed.

(** C9. [scrape_product] raises on a URL whose host has an opening
    square bracket and no closing one: [urlparse(url)] raises ValueError
    before anything is fetched, and nothing catches it. *)
Theorem C9_scrape_product_raises html soup product_name :
  scrape_product (py "http://[") html soup product_name = Raise ValueError.
Proof. reflexivity. Qed.


(* ================================================================== *)
(** ** Properties: the anchor *)
(* ================================================================== *)

Lemma node_ind_nested (P : node -> Prop) :
  (forall name attrs cs, Forall P cs -> P (Tag name attrs cs)) ->
  (forall c s, P (Text c s)) ->
  forall n, P n.
Proof.
  intros Htag Htext. fix IH 1. intros [name attrs cs|c s]; [|apply Htext].
  apply Htag. induction cs as [|n cs IHcs]; constructor; [apply IH|exact IHcs].
Qed.

Lemma walk_unfold keep above pos name attrs cs rest :
  walk keep above pos (Tag name attrs cs) rest =
    (if keep above (Element pos name attrs cs) then [Element pos name attrs cs] else [])
    ++ walk_children keep ((name, attrs) :: above) pos 0 cs rest.
Proof.
  simpl.
  assert (Hchildren : forall i,
    (fix children (i : nat) (l : list node) : list element :=
       match l with
       | [] => rest
       | c :: l' => walk keep ((name, attrs) :: above) (i :: pos) c (children (S i) l')
       end) i cs = walk_children keep ((name, attrs) :: above) pos i cs rest).
  { induction cs as [|c cs IH]; intros i; simpl; [done|]. by rewrite IH. }
  rewrite Hchildren. by destruct (keep above _).
Qed.

(** The tags found come before [rest]. *)
Lemma walk_rest keep n :
  forall above pos rest,
    walk keep above pos n rest = walk keep above pos n [] ++ rest.
Proof.
  induction n as [name attrs cs IH|c s] using node_ind_nested;
    intros above pos rest; [|done].
  rewrite !walk_unfold, <-(assoc_L (++)). f_equal.
  generalize 0%nat. generalize ((name, attrs) :: above). intros above'.
  induction IH as [|n cs Hn Hcs IHcs]; intros i; simpl; [done|].
  by rewrite Hn, IHcs, (Hn _ _ (walk_children _ _ _ _ _ [])), (assoc_L (++)).
Qed.

Lemma walk_children_cons keep above pos i c l :
  walk_children keep above pos i (c :: l) [] =
    walk keep above (i :: pos) c [] ++ walk_children keep above pos (S i) l [].
Proof. simpl. apply walk_rest. Qed.

(** A search that does not look at the tags above an element filters
    the list of all tags. *)
Lemma walk_filter (keep : element -> bool) n :
  forall above pos,
    walk (fun _ => keep) above pos n [] =
    filter (fun el => keep el = true) (walk (fun _ _ => true) above pos n []).
Proof.
  induction n as [name attrs cs IH|c s] using node_ind_nested; intros above pos; [|done].
  rewrite !walk_unfold, filter_app. f_equal.
  - rewrite filter_cons, filter_nil. destruct (keep _); by case_decide.
  - generalize 0%nat. generalize ((name, attrs) :: above). intros above'.
    induction IH as [|n cs Hn Hcs IHcs]; intros i; [done|].
    by rewrite !walk_children_cons, filter_app, Hn, IHcs.
Qed.

Lemma descendants_filter (keep : element -> bool) soup :
  descendants (fun _ => keep) soup =
  filter (fun el => keep el = true) (find_all_tags soup).
Proof.
  unfold find_all_tags, descendants. generalize 0%nat. generalize (@nil tag_info).
  generalize (@nil nat).
  induction soup as [|n soup IH]; intros pos above i; [done|].
  by rewrite !walk_children_cons, filter_app, walk_filter, IH.
Qed.

(** [soup.find(name)] is the first tag of that name in document order. *)
Lemma find_first soup name :
  find soup name = head (filter (fun el => tag_name el = name) (find_all_tags soup)).
Proof.
  unfold find, find_all.
  rewrite (descendants_filter (fun el => bool_decide (tag_name el = name))).
  f_equal. apply list_filter_iff. intros el. apply bool_decide_eq_true.
Qed.

Lemma empty_hint_anchor soup product_name :
  strip (lower product_name) = [] ->
  _find_anchor_element soup product_name = find soup (py "h1") /\
  resolve_anchor soup product_name = find soup (py "h1").
Proof.
  intros Hhint.
  assert (Hfind : _find_anchor_element soup product_name = find soup (py "h1")).
  { unfold _find_anchor_element. by rewrite Hhint. }
  split; [done|]. unfold resolve_anchor. by destruct product_name.
Qed.

(** C3 (amended). With an empty hint the anchor locator returns the
    first h1 of the document in document order, and an absent anchor
    when the document has no h1; so does the anchor [scrape_product]
    resolves. *)
Theorem C3_empty_hint_anchor soup product_name :
  strip (lower product_name) = [] ->
  _find_anchor_element soup product_name
    = head (filter (fun el => tag_name el = py "h1") (find_all_tags soup)) /\
  resolve_anchor soup product_name
    = head (filter (fun el => tag_name el = py "h1") (find_all_tags soup)).
Proof.
  intros [-> ->]%(empty_hint_anchor soup). by rewrite find_first.
Qed.

(** On a page with two headings and a hint of blanks, the anchor is the
    heading that comes first in the document. *)
Lemma C3_empty_hint_anchor_witness :
  strip (lower (py "  ")) = [] /\
  _find_anchor_element page_two_h1 (py "  ")
    = Some (Element [0; 0; 0; 0]%nat (py "h1") [] [text "First"]).
Proof.
  split; [reflexivity|].
  destruct (C3_empty_hint_anchor page_two_h1 (py "  ") eq_refl) as [-> _].
  reflexivity.
Defined.

(** C3 (as stated) fails: on a page without h1 the anchor is absent,
    not the root of the tree. *)
Lemma C3_no_h1_anchor_is_absent :
  filter (fun el => tag_name el = py "h1") (find_all_tags page_no_h1) = [] /\
  _find_anchor_element page_no_h1 [] = None /\
  resolve_anchor page_no_h1 [] = None.
Proof. repeat split; by_evaluation. Qed.

(* ================================================================== *)
(** ** Properties: the structured-data strategy *)
(* ================================================================== *)


Lemma ld_candidates_entries page_path soup :
  ld_candidates page_path (ld_json_scripts soup)
    = candidate_of page_path <$> ld_entries soup.
Proof.
  unfold ld_candidates, ld_entries.
  induction (ld_json_scripts soup) as [|script scripts IH]; simpl; [done|].
  rewrite IH. unfold ld_candidate.
  by destruct (read_entry script) as [[e|]|].
Qed.





(* ================================================================== *)
(** ** Properties: the selector heuristics and the proximity sweep *)
(* ================================================================== *)

(** The prices the two positional strategies return are positive. *)
Lemma _try_selectors_positive soup anchor r :
  _try_selectors soup anchor = Some r ->
  exists price, r !! "price" = Some (JFloat price) /\ float_positive price.
Proof.
  rewrite _try_selectors_fold.
  pose proof (closest_result (anchor_or_h1 soup anchor) (selector_survivors soup)) as Hr.
  destruct (best_result _) as [r'|]; [|done]. intros [= ->].
  destruct Hr as (i & c & Hi & -> & _).
  apply list_elem_of_lookup_2, elem_of_selector_survivors in Hi
    as (_ & _ & _ & _ & _ & _ & Hpos).
  exists (p_price c). split; [|done]. unfold result_of.
  by rewrite lookup_insert_eq.
Qed.

Lemma _try_proximity_sweep_positive soup anchor r :
  _try_proximity_sweep soup anchor = Some r ->
  exists price, r !! "price" = Some (JFloat price) /\ float_positive price.
Proof.
  rewrite _try_proximity_sweep_fold.
  pose proof (closest_result (anchor_or_h1 soup anchor) (sweep_survivors soup)) as Hr.
  destruct (best_result _) as [r'|]; [|done]. intros [= ->].
  destruct Hr as (i & c & Hi & -> & _).
  apply list_elem_of_lookup_2, elem_of_sweep_survivors in Hi
    as (_ & _ & _ & _ & _ & _ & Hpos & _).
  exists (p_price c). split; [|done]. unfold result_of.
  by rewrite lookup_insert_eq.
Qed.



(** *** A price too deep to be kept *)









(** *** Without an anchor *)





(* ================================================================== *)
(** ** Properties: more on the DOM distance *)
(* ================================================================== *)

Section distance_more.
Implicit Types a b c : list nat.
Local Open Scope Z_scope.

Lemma common_suffix_self a : common_suffix a a = a.
Proof. rewrite common_suffix_unfold. by rewrite decide_True. Qed.

(** X1. The DOM distance between two elements is 0 exactly when they
    are the same node of the tree. *)
Theorem X1_dom_distance_zero_iff (el_a el_b : element) :
  _dom_distance el_a el_b = 0 <-> tag_position el_a = tag_position el_b.
Proof.
  rewrite _dom_distance_eq.
  pose proof (common_suffix_l (tag_position el_a) (tag_position el_b)) as Ha.
  pose proof (common_suffix_r (tag_position el_a) (tag_position el_b)) as Hb.
  pose proof (suffix_length _ _ Ha). pose proof (suffix_length _ _ Hb).
  split.
  - intros Hd.
    apply suffix_length_eq in Ha; [|lia]. apply suffix_length_eq in Hb; [|lia].
    congruence.
  - intros ->. rewrite common_suffix_self. lia.
Qed.

(** X2. The DOM distance satisfies the triangle inequality: going from
    A to C is never longer than going from A to B and from B to C. *)
Theorem X2_dom_distance_triangle (el_a el_b el_c : element) :
  _dom_distance el_a el_c ≤ _dom_distance el_a el_b + _dom_distance el_b el_c.
Proof.
  rewrite !_dom_distance_eq.
  set (a := tag_position el_a). set (b := tag_position el_b). set (c := tag_position el_c).
  pose proof (common_suffix_l a b) as Hab_a. pose proof (common_suffix_r a b) as Hab_b.
  pose proof (common_suffix_l b c) as Hbc_b. pose proof (common_suffix_r b c) as Hbc_c.
  pose proof (suffix_length _ _ Hab_b). pose proof (suffix_length _ _ Hbc_b).
  destruct (suffix_weak_total _ _ _ Hab_b Hbc_b) as [Hs|Hs].
  - assert (Hz : common_suffix a b `suffix_of` common_suffix a c).
    { apply common_suffix_greatest; [done|]. by etrans. }
    apply suffix_length in Hz. lia.
  - assert (Hz : common_suffix b c `suffix_of` common_suffix a c).
    { apply common_suffix_greatest; [|done]. by etrans. }
    apply suffix_length in Hz. lia.
Qed.

(** X3. An element is as many edges from a tag above it as there are
    levels between the two, in either direction. *)
Theorem X3_dom_distance_ancestor (el : element) (up : list nat) name attrs cs :
  _dom_distance (Element (up ++ tag_position el) name attrs cs) el
  = Z.of_nat (length up) /\
  _dom_distance el (Element (up ++ tag_position el) name attrs cs)
  = Z.of_nat (length up).
Proof.
  rewrite !_dom_distance_eq. cbn [tag_position].
  rewrite (common_suffix_comm (tag_position el)).
  rewrite common_suffix_unfold, decide_True by (by apply suffix_app_r).
  rewrite length_app. lia.
Qed.
End distance_more.

(* ================================================================== *)
(** ** Properties: more on the price text parser *)
(* ================================================================== *)


Lemma elem_of_rev_1 (c : pychar) (l : pystr) : c ∈ rev l -> c ∈ l.
Proof. rewrite !list_elem_of_In. apply in_rev. Qed.

Lemma split_ws_aux_chars s : forall cur w c,
  w ∈ split_ws_aux cur s -> c ∈ w -> c ∈ cur \/ c ∈ s.
Proof.
  induction s as [|x s IH]; intros cur w c; simpl.
  - destruct cur as [|y cur]; [by intros ?%elem_of_nil|].
    intros ->%list_elem_of_singleton Hc%elem_of_rev_1. by left.
  - destruct (isspace x).
    + destruct cur as [|y cur].
      * intros Hw Hc. destruct (IH _ _ _ Hw Hc) as [?|?]; [by left|right; by right].
      * intros [->|Hw]%elem_of_cons Hc.
        -- apply elem_of_rev_1 in Hc. by left.
        -- destruct (IH _ _ _ Hw Hc) as [?%elem_of_nil|?]; [done|right; by right].
    + intros Hw Hc. destruct (IH _ _ _ Hw Hc) as [[->|?]%elem_of_cons|?];
        [right; by left|by left|right; by right].
Qed.

Lemma join_chars sep parts c :
  c ∈ join sep parts -> c ∈ sep \/ exists w, w ∈ parts /\ c ∈ w.
Proof.
  induction parts as [|p parts IH]; simpl; [by intros ?%elem_of_nil|].
  destruct parts as [|q parts].
  - intros Hc. right. exists p. split; [by left|done].
  - intros [Hc|[Hc|Hc]%elem_of_app]%elem_of_app.
    + right. exists p. split; [by left|done].
    + by left.
    + destruct (IH Hc) as [?|(w & Hw & ?)]; [by left|].
      right. exists w. split; [by right|done].
Qed.

Lemma normalised_chars text c :
  c ∈ join [ch_space] (split_ws text) -> c = ch_space \/ c ∈ text.
Proof.
  intros [->%list_elem_of_singleton|(w & Hw & Hc)]%join_chars; [by left|].
  destruct (split_ws_aux_chars _ _ _ _ Hw Hc) as [?%elem_of_nil|?]; [done|by right].
Qed.

Lemma match_at_digit (p : pattern) s g :
  starts_with_digit (captured p) -> match_at p s = Some g ->
  exists d, d ∈ s /\ isdecimal d = true.
Proof.
  intros [r' Hr] Hm. unfold match_at in Hm. rewrite Hr in Hm.
  apply (rmatch_consumes _ _ (chars_in_any _)) in Hm as (pre0 & s1 & -> & _ & Hm).
  cbn [rmatch rep_loop] in Hm.
  destruct s1 as [|d s1]; [done|].
  destruct (isdecimal d) eqn:Hd; [|done].
  exists d. split; [|done]. apply elem_of_app. right. by left.
Qed.

Lemma re_search_digit (p : pattern) s g :
  starts_with_digit (captured p) -> re_search p s = Some g ->
  exists d, d ∈ s /\ isdecimal d = true.
Proof.
  intros Hp. induction s as [|c s IH]; simpl;
    destruct (match_at p _) as [g'|] eqn:Hm; try done.
  - intros _. by eapply match_at_digit.
  - intros _. by eapply match_at_digit.
  - intros (d & Hd & ?)%IH. exists d. split; [by right|done].
Qed.

Lemma first_price_digit patterns text x :
  Forall (fun p => starts_with_digit (captured p)) patterns ->
  first_price patterns text = Some x ->
  exists d, d ∈ text /\ isdecimal d = true.
Proof.
  induction 1 as [|p patterns Hp Hps IH]; simpl; [done|].
  destruct (re_search p text) as [g|] eqn:Hg; [|done].
  intros _. by eapply re_search_digit.
Qed.

Lemma price_patterns_digit :
  Forall (fun p => starts_with_digit (captured p)) _PRICE_PATTERNS.
Proof.
  unfold _PRICE_PATTERNS, re_amount, re_amount_euro, re_amount_bare.
  repeat apply Forall_cons_2; try apply Forall_nil_2; cbn [captured]; by eexists.
Qed.

(** X5. A text without a decimal digit holds no price: the parser
    returns nothing, whatever currency signs and codes the text has. *)
Theorem X5_price_text_needs_digit text :
  Forall (fun c => isdecimal c = false) text ->
  _extract_price_from_text text = None.
Proof.
  intros Hno. destruct (_extract_price_from_text text) as [x|] eqn:Hx; [|done].
  unfold _extract_price_from_text in Hx. destruct text as [|c0 text]; [done|].
  apply (first_price_digit _ _ _ price_patterns_digit) in Hx as (d & Hd & Hdec).
  apply normalised_chars in Hd as [->|Hd]; [done|].
  rewrite Forall_forall in Hno. apply Hno in Hd. congruence.
Qed.

Lemma X5_price_text_needs_digit_witness :
  _extract_price_from_text (py "Free shipping £ € $ USD") = None.
Proof.
  apply X5_price_text_needs_digit.
  assert (Hall : forallb (fun c => negb (isdecimal c))
                    (py "Free shipping £ € $ USD") = true) by (vm_compute; reflexivity).
  rewrite forallb_forall in Hall.
  apply Forall_forall. intros c Hc. apply list_elem_of_In in Hc.
  by apply negb_true_iff, Hall.
Defined.

Lemma contains_char (x : pychar) (s : pystr) :
  contains [x] s = true <-> x ∈ s.
Proof.
  induction s as [|c s IH]; simpl.
  - split; [done|by intros ?%elem_of_nil].
  - rewrite andb_true_r, orb_true_iff, IH, N.eqb_eq, elem_of_cons. done.
Qed.

(** X6. The currency detector looks at the signs only, the pound
    first: the result is GBP exactly when the text has a pound sign,
    EUR exactly when it has a euro sign and no pound sign, and USD in
    every other case, whatever else the text says. *)
Theorem X6_detect_currency text :
  (_detect_currency text = py "GBP" <-> ch_pound ∈ text) /\
  (_detect_currency text = py "EUR" <-> (ch_pound ∉ text) /\ ch_euro ∈ text) /\
  (_detect_currency text = py "USD" <-> (ch_pound ∉ text) /\ (ch_euro ∉ text)).
Proof.
  unfold _detect_currency.
  destruct (contains [ch_pound] text) eqn:Hp.
  - apply contains_char in Hp. split_and!; split; try done; by intros [? ?].
  - assert (ch_pound ∉ text) by (rewrite <-contains_char; congruence).
    destruct (contains [ch_euro] text) eqn:He.
    + apply contains_char in He. split_and!; split; try done; by intros [? ?].
    + assert (ch_euro ∉ text) by (rewrite <-contains_char; congruence).
      split_and!; split; try done; by intros [? ?].
Qed.

(** X7. The price parser reads the words of the text only: two texts
    that split into the same words at white space give the same price,
    so runs of blanks, tabs, line ends and no-break spaces count as one
    blank and white space at either end is ignored. *)
Theorem X7_price_text_words text text' :
  split_ws text = split_ws text' ->
  _extract_price_from_text text = _extract_price_from_text text'.
Proof.
  intros Hw. unfold _extract_price_from_text.
  destruct text as [|c text], text' as [|c' text']; [done| | |by rewrite Hw].
  - rewrite <-Hw. reflexivity.
  - rewrite Hw. reflexivity.
Qed.

Lemma X7_price_text_words_witness :
  _extract_price_from_text [9; 36; 10; 160; 53; 32]
  = _extract_price_from_text (py "$ 5").
Proof. apply X7_price_text_words. reflexivity. Defined.

Lemma isspace_false x :
  33 <= x -> x <= 5759 -> x <> 133 -> x <> 160 -> isspace x = false.
Proof.
  intros. unfold isspace.
  rewrite (proj2 (N.leb_gt x 13)), (proj2 (N.leb_gt x 32)),
    (proj2 (N.leb_gt 8192 x)) by lia.
  rewrite !(proj2 (N.eqb_neq x _)) by lia.
  by rewrite !andb_false_r.
Qed.

Lemma ascii_digit_range c : is_ascii_digit c = true <-> 48 <= c <= 57.
Proof. unfold is_ascii_digit. rewrite andb_true_iff, !N.leb_le. done. Qed.

Lemma ascii_digit_decimal c : is_ascii_digit c = true -> isdecimal c = true.
Proof.
  intros Hc%ascii_digit_range. unfold isdecimal, decimal_value, decimal_zeros.
  cbn [List.find].
  rewrite (proj2 (N.leb_le 48 c)), (proj2 (N.ltb_lt c (48 + 10))) by lia. done.
Qed.

Lemma ascii_digit_not_space c : is_ascii_digit c = true -> isspace c = false.
Proof. intros Hc%ascii_digit_range. apply isspace_false; lia. Qed.

Lemma split_ws_aux_no_space s : forall cur,
  Forall (fun c => isspace c = false) s ->
  split_ws_aux cur s = match rev cur ++ s with [] => [] | w => [w] end.
Proof.
  induction s as [|c s IH]; intros cur Hs; simpl.
  - rewrite app_nil_r. destruct cur as [|x cur]; [done|].
    simpl. by destruct (rev cur ++ [x]) eqn:Hr; [destruct (rev cur)|].
  - apply Forall_cons in Hs as [Hc Hs]. rewrite Hc, IH by done.
    simpl. by rewrite <-(assoc_L (++)).
Qed.

Lemma normalise_no_space text :
  Forall (fun c => isspace c = false) text ->
  join [ch_space] (split_ws text) = text.
Proof.
  intros Hs. unfold split_ws. rewrite split_ws_aux_no_space by done.
  simpl. by destruct text.
Qed.

(** A greedy run of digits: the repetition takes the digits [front] when
    there are as many as it may take, or a character that is not a
    digit follows. *)
Lemma rep_loop_digits {R : Type} (body : matcher R) (k : pystr -> option R) x front :
  (forall s k', body s k' = match s with
                            | c :: s' => if isdecimal c then k' s' else None
                            | [] => None
                            end) ->
  forall lo hi back,
  Forall (fun c => isdecimal c = true) front ->
  (lo <= length front <= hi)%nat ->
  (length front = hi \/ match back with [] => True | b :: _ => isdecimal b = false end) ->
  k back = Some x ->
  rep_loop body k lo hi (front ++ back) = Some x.
Proof.
  intros Hbody.
  induction front as [|d front IH]; intros lo hi back Hfront Hlen Hstop Hk.
  - simpl in *. assert (lo = 0%nat) as -> by lia.
    destruct hi as [|hi]; [done|]. simpl. rewrite Hbody.
    destruct Hstop as [?|Hstop]; [done|].
    destruct back as [|b back]; [by rewrite Hk|]. by rewrite Hstop, Hk.
  - apply Forall_cons in Hfront as [Hd Hfront]. simpl in Hlen.
    destruct hi as [|hi]; [lia|]. simpl. rewrite Hbody, Hd.
    rewrite (IH (pred lo) hi back); [done|done|lia| |done].
    destruct Hstop as [Hstop|Hstop]; [left; simpl in Hstop; lia|by right].
Qed.

Lemma take_digits_number ds : forall acc n,
  Forall (fun c => is_ascii_digit c = true) ds ->
  take_digits ds acc n =
    (foldl (fun acc c => (10 * acc + Z.of_N (c - 48))%Z) acc ds, (n + length ds)%nat, []).
Proof.
  induction ds as [|d ds IH]; intros acc n Hds; simpl.
  - by rewrite Nat.add_0_r.
  - apply Forall_cons in Hds as [Hd Hds]. rewrite Hd, IH by done.
    by rewrite Nat.add_succ_r.
Qed.

Lemma drop_underscores_digits ds : forall prev,
  Forall (fun c => is_ascii_digit c = true) ds -> prev <> 95 ->
  drop_underscores prev ds = Some ds.
Proof.
  induction ds as [|d ds IH]; intros prev Hds Hprev; simpl.
  - by rewrite (proj2 (N.eqb_neq prev 95)).
  - apply Forall_cons in Hds as [Hd Hds].
    pose proof (proj1 (ascii_digit_range d) Hd).
    rewrite (proj2 (N.eqb_neq d 95)), (proj2 (N.eqb_neq prev 95)) by lia.
    simpl. rewrite IH by (done || lia). done.
Qed.

Lemma float_of_str_digits ds :
  ds <> [] -> Forall (fun c => is_ascii_digit c = true) ds ->
  float_of_str ds = Some (Finite (number_of ds) 0).
Proof.
  intros Hne Hds. unfold float_of_str.
  assert (Hmap : map to_ascii_number ds = ds).
  { clear Hne. induction Hds as [|d ds Hd%ascii_digit_range _ IH]; [done|].
    simpl. rewrite IH. unfold to_ascii_number.
    by rewrite (proj2 (N.ltb_lt d 127)) by lia. }
  rewrite Hmap.
  assert (Hstrip : forall s, s <> [] -> Forall (fun c => is_ascii_digit c = true) s ->
                             lstrip_ascii s = s).
  { intros s Hs Hf. destruct s as [|c s]; [done|].
    apply Forall_cons in Hf as [Hc%ascii_digit_range _]. simpl.
    unfold is_ascii_space.
    by rewrite (proj2 (N.leb_gt c 13)), (proj2 (N.eqb_neq c 32)), andb_false_r by lia. }
  rewrite (Hstrip ds), (Hstrip (rev ds)), rev_involutive; try done.
  2: { intros Hr. apply (f_equal (@rev _)) in Hr. by rewrite rev_involutive in Hr. }
  2: { apply Forall_forall. intros c Hc%list_elem_of_In%in_rev%list_elem_of_In.
       rewrite Forall_forall in Hds. by apply Hds. }
  rewrite drop_underscores_digits by done. cbn [mbind option_bind].
  unfold parse_float.
  destruct ds as [|d ds]; [done|].
  pose proof Hds as [Hd%ascii_digit_range _]%Forall_cons.
  unfold take_sign. rewrite (proj2 (N.eqb_neq d 45)), (proj2 (N.eqb_neq d 43)) by lia.
  assert (Hplain : Forall plain_char (d :: ds)).
  { eapply Forall_impl; [exact Hds|]. intros c ?. by left. }
  rewrite (lower_ascii_plain _ Hplain).
  rewrite !bool_decide_eq_false_2.
  2-4: apply plain_not_special; [done|].
  2: by right; right; left. 2: by right; left. 2: by left.
  cbn [orb]. rewrite take_digits_number by done.
  cbn [take_fraction]. rewrite Nat.add_0_r.
  destruct (Nat.eqb_spec (0 + length (d :: ds)) 0) as [Hz|_]; [simpl in Hz; lia|].
  done.
Qed.

Lemma amount_digits {R : Type} (k : pystr -> option R) ds x :
  ds <> [] -> Forall (fun c => is_ascii_digit c = true) ds ->
  k (drop 6 ds) = Some x -> rmatch re_amount ds k = Some x.
Proof.
  intros Hne Hds Hk. unfold re_amount. cbn [rmatch].
  rewrite <-(take_drop 6 ds) at 1.
  apply rep_loop_digits.
  - done.
  - apply Forall_take. eapply Forall_impl; [exact Hds|]. apply ascii_digit_decimal.
  - rewrite length_take. destruct ds; [done|]. cbn [length]. lia.
  - destruct (decide (6 <= length ds)%nat) as [Hl|Hl].
    + left. rewrite length_take. lia.
    + right. rewrite drop_ge by lia. done.
  - assert (Hback : Forall (fun c => is_ascii_digit c = true) (drop 6 ds))
      by (by apply Forall_drop).
    destruct (drop 6 ds) as [|b back]; [by cbn [length star_loop rmatch]; rewrite Hk|].
    apply Forall_cons in Hback as [Hb%ascii_digit_range _].
    cbn [length star_loop rmatch].
    by rewrite (proj2 (N.eqb_neq b ch_comma)), (proj2 (N.eqb_neq b ch_dot)), Hk
      by (unfold ch_comma, ch_dot; lia).
Qed.

Lemma match_at_dollar_digits ds :
  ds <> [] -> Forall (fun c => is_ascii_digit c = true) ds ->
  match_at (Pattern (Cat (Chr ch_dollar) (Star Space)) re_amount Empty) (ch_dollar :: ds)
  = Some (take 6 ds).
Proof.
  intros Hne Hds. unfold match_at. cbn [before captured after].
  cbn [rmatch]. rewrite N.eqb_refl.
  assert (Hstar : forall K : pystr -> option pystr,
            star_loop (rmatch Space) K (length ds) ds = K ds).
  { intros K. destruct ds as [|d ds]; [done|].
    apply Forall_cons in Hds as [Hd _]. cbn [length star_loop rmatch].
    by rewrite (ascii_digit_not_space d). }
  rewrite Hstar. apply amount_digits; [done|done|].
  f_equal. rewrite length_drop.
  destruct (decide (length ds <= 6)%nat) as [Hl|Hl].
  - by rewrite !take_ge by lia.
  - f_equal. lia.
Qed.

Lemma digits_without x s :
  Forall (fun c => is_ascii_digit c = true) s -> x = ch_comma \/ x = ch_dot ->
  replace_char x [] s = s /\ count_char x s = 0%nat.
Proof.
  intros Hs Hx. induction Hs as [|c s Hc%ascii_digit_range _ [IH1 IH2]]; [done|].
  assert (c <> x) by (unfold ch_comma, ch_dot in Hx; lia).
  unfold replace_char, count_char, pystr in *. simpl.
  rewrite (proj2 (N.eqb_neq c x)), filter_cons_False by done. simpl.
  by rewrite IH1, IH2.
Qed.

Lemma re_search_at_start p s g : match_at p s = Some g -> re_search p s = Some g.
Proof. intros Hm. destruct s; simpl; by rewrite Hm. Qed.

(** X30. A dollar sign followed by ASCII digits is read as the
    number its first six digits denote: up to six digits give the
    number itself, and a longer run is cut after the sixth digit. *)
Theorem X30_dollar_digits ds :
  ds <> [] -> Forall (fun c => is_ascii_digit c = true) ds ->
  _extract_price_from_text (ch_dollar :: ds) = Some (Finite (number_of (take 6 ds)) 0).
Proof.
  intros Hne Hds. unfold _extract_price_from_text.
  rewrite normalise_no_space.
  2: { apply Forall_cons. split; [done|].
       eapply Forall_impl; [exact Hds|]. apply ascii_digit_not_space. }
  unfold _PRICE_PATTERNS. cbn [first_price].
  rewrite (re_search_at_start _ _ _ (match_at_dollar_digits ds Hne Hds)).
  assert (Htake : Forall (fun c => is_ascii_digit c = true) (take 6 ds))
    by (by apply Forall_take).
  assert (Hne' : take 6 ds <> []) by (by destruct ds).
  destruct (digits_without ch_comma _ Htake) as [-> _]; [by left|].
  destruct (digits_without ch_dot _ Htake) as [_ ->]; [by right|].
  cbn [Nat.ltb Nat.leb]. by rewrite float_of_str_digits.
Qed.

Lemma X30_dollar_digits_witness :
  _extract_price_from_text (py "$1234567") = Some (Finite 123456 0) /\
  _extract_price_from_text (py "$15") = Some (Finite 15 0).
Proof.
  split.
  - apply (X30_dollar_digits (py "1234567")); [done|].
    repeat apply Forall_cons_2; try apply Forall_nil_2; reflexivity.
  - apply (X30_dollar_digits (py "15")); [done|].
    repeat apply Forall_cons_2; try apply Forall_nil_2; reflexivity.
Defined.

(* ================================================================== *)
(** ** Properties: the anchor for a hint *)
(* ================================================================== *)

Section anchor.
Context (needle : pystr).






End anchor.



(* ================================================================== *)
(** ** Properties: the title *)
(* ================================================================== *)

Lemma lstrip_head s :
  match lstrip s with [] => True | c :: _ => isspace c = false end.
Proof.
  induction s as [|c s IH]; simpl; [done|].
  destruct (isspace c) eqn:Hc; [done|]. done.
Qed.

Lemma lstrip_app_nonspace l c :
  isspace c = false -> lstrip (l ++ [c]) = lstrip l ++ [c].
Proof.
  intros Hc. induction l as [|x l IH]; simpl; [by rewrite Hc|].
  by destruct (isspace x).
Qed.

Lemma strip_stripped s : stripped (strip s).
Proof.
  unfold stripped, strip, rstrip. rewrite rev_involutive.
  split; [|apply lstrip_head].
  pose proof (lstrip_head s) as Hu.
  destruct (lstrip s) as [|c u]; [done|].
  simpl rev. rewrite lstrip_app_nonspace, rev_unit by done. done.
Qed.

Lemma stripped_strip s : stripped s -> strip s = s.
Proof.
  intros [Hl Hr]. unfold strip, rstrip.
  assert (Hs : lstrip s = s).
  { destruct s as [|c s]; [done|]. simpl. by rewrite Hl. }
  rewrite Hs.
  assert (Hs' : lstrip (rev s) = rev s).
  { destruct (rev s) as [|c r]; [done|]. simpl. by rewrite Hr. }
  by rewrite Hs', rev_involutive.
Qed.

Lemma stripped_app a b :
  a <> [] -> b <> [] -> stripped a -> stripped b -> stripped (a ++ b).
Proof.
  intros Ha Hb [Ha1 _] [_ Hb2]. unfold stripped. rewrite rev_app_distr.
  destruct a as [|c a]; [done|]. split; [done|].
  destruct (rev b) as [|d r] eqn:Hr; [|done].
  apply (f_equal (@rev _)) in Hr. rewrite rev_involutive in Hr. done.
Qed.

Lemma join_stripped parts :
  Forall (fun p => p <> [] /\ stripped p) parts ->
  stripped (join [] parts) /\ (parts <> [] -> join [] parts <> []).
Proof.
  induction 1 as [|p parts [Hp Hs] Hps IH]; [done|].
  destruct parts as [|q parts]; [done|].
  destruct IH as [IH1 IH2].
  change (join [] (p :: q :: parts)) with (p ++ join [] (q :: parts)).
  split.
  - apply stripped_app; [done|by apply IH2|done|done].
  - intros _. by destruct p.
Qed.

Lemma get_text_stripped el : stripped (get_text [] el).
Proof.
  unfold get_text. apply join_stripped.
  apply Forall_forall. intros p [Hp Hin]%list_elem_of_filter.
  split; [done|].
  apply list_elem_of_fmap in Hin as (cs & -> & _). apply strip_stripped.
Qed.

Lemma title_from_json_ld_stripped scripts title :
  title_from_json_ld scripts = Some title -> stripped title.
Proof.
  induction scripts as [|script scripts IH]; simpl; [done|].
  destruct (load_block script) as [data|]; simpl; [|done].
  destruct (get data (py "@type")) as [ty|]; simpl; [|done].
  destruct (is_str ty (py "Product")); [|done].
  destruct (get data (py "name")) as [name|]; simpl; [|done].
  destruct (truthy name); [|done].
  intros [= <-]. apply strip_stripped.
Qed.

(** X9. The title the title extractor returns never has white space
    at either end, whichever of its five sources it comes from. *)
Theorem X9_extract_title_stripped soup :
  strip (_extract_title soup) = _extract_title soup.
Proof.
  apply stripped_strip. unfold _extract_title.
  destruct (title_from_json_ld _) as [title|] eqn:Hld;
    [by eapply title_from_json_ld_stripped|].
  destruct (find soup (py "h1")) as [h1|]; [apply get_text_stripped|].
  destruct (_ ≫= _) as [[|c content]|].
  2: apply strip_stripped.
  all: destruct (find soup (py "title")) as [title_tag|];
    [apply get_text_stripped|by vm_compute].
Qed.

(* ================================================================== *)
(** ** Properties: the results of the strategies *)
(* ================================================================== *)

Lemma read_entry_name script e :
  read_entry script = Ok (Some e) ->
  e_name e = JNull \/ exists s, e_name e = JStr (strip s).
Proof.
  unfold read_entry.
  destruct (load_block script) as [data|]; simpl; [|done].
  destruct (get data (py "@type")) as [ty|]; simpl; [|done].
  destruct (negb _); [done|].
  destruct (get_default data (py "offers") _) as [offers|]; simpl; [|done].
  destruct (match offers with JList l => first_item l | _ => Ok offers end)
    as [offers'|]; simpl; [|done].
  destruct (get offers' (py "price")) as [offers_price|]; simpl; [|done].
  destruct (if truthy offers_price then _ else _) as [price_raw|]; simpl; [|done].
  destruct (get data (py "name")) as [name|]; simpl; [|done].
  destruct (get_default offers' (py "priceCurrency") _) as [currency|]; simpl; [|done].
  assert (Hname : forall (price : pyfloat) (ld_path : pystr),
    let e := {| e_name := if truthy name then JStr (strip (py_str name)) else JNull;
                e_price := price; e_currency := currency; e_path := ld_path |} in
    e_name e = JNull \/ exists s, e_name e = JStr (strip s)).
  { intros price ld_path. simpl. destruct (truthy name); [right; by eexists|by left]. }
  destruct price_raw; try done;
    (destruct (float_of_str _) as [price|]; [|done]);
    (destruct (ld_path_of data) as [ld_path|]; simpl; [|done]);
    intros [= <-]; apply Hname.
Qed.

Lemma ld_entries_name soup e :
  e ∈ ld_entries soup -> e_name e = JNull \/ exists s, e_name e = JStr (strip s).
Proof.
  unfold ld_entries. intros (script & _ & Hread)%list_elem_of_omap.
  destruct (read_entry script) as [[e'|]|] eqn:Hr; try done.
  injection Hread as ->. by eapply read_entry_name.
Qed.

Lemma _try_json_ld_shape soup page_url :
  match _try_json_ld soup page_url with
  | Ok (Some d) => json_ld_result d
  | _ => True
  end.
Proof.
  unfold json_ld_result.
  unfold _try_json_ld. destruct (request_path page_url) as [page_path|]; simpl; [|done].
  rewrite ld_candidates_entries.
  assert (Hchosen : forall chosen, chosen ∈ candidate_of page_path <$> ld_entries soup ->
    exists name price currency,
      ld_result chosen
      = {[ "name" := name; "price" := JFloat price; "currency" := currency ]} /\
      (name = JNull \/ exists s, name = JStr (strip s))).
  { intros chosen (e & -> & He)%list_elem_of_fmap.
    exists (e_name e), (e_price e), (e_currency e). split; [done|].
    by eapply ld_entries_name. }
  destruct (ld_entries soup) as [|first rest]; [done|].
  cbn [fmap list_fmap] in *.
  destruct (filter _ _) as [|m ms] eqn:Hf.
  - apply Hchosen. by left.
  - apply Hchosen.
    assert (Hm : m ∈ m :: ms) by (by left).
    rewrite <-Hf in Hm. by apply list_elem_of_filter in Hm as [_ Hm].
Qed.

(** X10. The dict [_try_json_ld] returns has the three keys name,
    price and currency; the price is a float, and the name is [None]
    or a text without white space at either end. *)
Theorem X10_json_ld_result_shape soup page_url :
  match _try_json_ld soup page_url with
  | Ok (Some d) =>
      exists name price currency,
        d = {[ "name" := name; "price" := JFloat price; "currency" := currency ]} /\
        (name = JNull \/ exists s, name = JStr (strip s))
  | _ => True
  end.
Proof. apply _try_json_ld_shape. Qed.


Lemma _detect_currency_codes text : _detect_currency text ∈ currency_codes.
Proof.
  unfold _detect_currency, currency_codes.
  destruct (contains _ _); [by left|].
  destruct (contains _ _); [right; by left|right; right; by left].
Qed.

Lemma price_positive_finite text price :
  _extract_price_from_text text = Some price -> float_positive price ->
  exists m e, price = Finite m e /\ (0 < m)%Z.
Proof.
  intros Hprice Hpos.
  apply _extract_price_from_text_finite in Hprice as (m & e & -> & Hm).
  exists m, e. split; [done|].
  unfold float_positive, float_ltb, float_zero in Hpos.
  rewrite float_Q_sign in Hpos. destruct m; try done; lia.
Qed.

Lemma closest_positional anchor cs :
  Forall (fun c => exists text, _extract_price_from_text text = Some (p_price c) /\
                                float_positive (p_price c)) cs ->
  match best_result (foldl (closest_step anchor) best_init cs) with
  | Some r => positional_result r
  | None => True
  end.
Proof.
  intros Hcs. pose proof (closest_result anchor cs) as Hr.
  destruct (best_result _) as [r|]; [|done].
  destruct Hr as (i & c & Hi & -> & _).
  rewrite Forall_forall in Hcs.
  destruct (Hcs c) as (text & Hprice & Hpos); [by eapply list_elem_of_lookup_2|].
  destruct (price_positive_finite _ _ Hprice Hpos) as (m & e & Hm & ?).
  exists m, e, (_detect_currency (p_text c)). unfold result_of. rewrite Hm.
  split_and!; [done|done|apply _detect_currency_codes].
Qed.

Lemma _try_selectors_positional soup anchor :
  match _try_selectors soup anchor with
  | Some r => positional_result r
  | None => True
  end.
Proof.
  rewrite _try_selectors_fold. apply closest_positional.
  apply Forall_forall. intros c (_ & _ & _ & _ & _ & ? & ?)%elem_of_selector_survivors.
  by eexists.
Qed.

Lemma _try_proximity_sweep_positional soup anchor :
  match _try_proximity_sweep soup anchor with
  | Some r => positional_result r
  | None => True
  end.
Proof.
  rewrite _try_proximity_sweep_fold. apply closest_positional.
  apply Forall_forall. intros c (_ & _ & _ & _ & _ & ? & ? & _)%elem_of_sweep_survivors.
  by eexists.
Qed.



(* ================================================================== *)
(** ** Properties: the results of [scrape_product] *)
(* ================================================================== *)

(** [scrape_product] on a URL that passes its test and a page that was
    fetched: the first strategy that returns a result gives the price. *)
Lemma scrape_product_strategies url parsed c html soup product_name :
  urlparse url = Ok parsed ->
  scheme parsed ∈ [py "http"; py "https"] -> netloc parsed <> [] ->
  scrape_product url (Some (c :: html)) soup product_name =
    match _try_json_ld soup url with
    | Raise e => Raise e
    | Ok (Some d) => Ok (Some d)
    | Ok None =>
        match _try_selectors soup (resolve_anchor soup product_name) with
        | Some r => Ok (Some (<["name" := JStr (_extract_title soup)]> r))
        | None =>
            match _try_proximity_sweep soup (resolve_anchor soup product_name) with
            | Some r => Ok (Some (<["name" := JStr (_extract_title soup)]> r))
            | None => Ok None
            end
        end
    end.
Proof.
  intros Hurl Hscheme Hnet. unfold scrape_product. rewrite Hurl. simpl.
  rewrite bool_decide_eq_true_2, bool_decide_eq_false_2 by done. simpl.
  pose proof (_try_json_ld_shape soup url) as Hld.
  destruct (_try_json_ld soup url) as [[d|]|e] eqn:Htry; simpl; [| |done].
  - destruct Hld as (name & price & currency & Hd & _).
    rewrite bool_decide_eq_false_2 by (rewrite Hd; apply insert_non_empty).
    simpl. by rewrite (_try_json_ld_has_name _ _ _ _ Htry).
  - pose proof (_try_selectors_positional soup (resolve_anchor soup product_name)) as Hsel.
    destruct (_try_selectors _ _) as [r|]; simpl.
    { destruct Hsel as (m & e & currency & -> & _).
      by rewrite bool_decide_eq_false_2 by apply insert_non_empty. }
    pose proof (_try_proximity_sweep_positional soup (resolve_anchor soup product_name))
      as Hsweep.
    destruct (_try_proximity_sweep _ _) as [r|]; simpl; [|done].
    destruct Hsweep as (m & e & currency & -> & _).
    by rewrite bool_decide_eq_false_2 by apply insert_non_empty.
Qed.

Lemma scrape_product_guard url parsed html soup product_name :
  urlparse url = Ok parsed ->
  scheme parsed ∉ [py "http"; py "https"] \/ netloc parsed = [] ->
  scrape_product url html soup product_name = Ok None.
Proof.
  intros Hurl Hbad. unfold scrape_product. rewrite Hurl. simpl.
  destruct Hbad as [Hs|Hn].
  - by rewrite (bool_decide_eq_false_2 _ Hs).
  - by rewrite (bool_decide_eq_true_2 _ Hn), orb_true_r.
Qed.

Lemma scrape_product_no_page url parsed html soup product_name :
  urlparse url = Ok parsed ->
  html = None \/ html = Some [] ->
  scrape_product url html soup product_name = Ok None.
Proof.
  intros Hurl Hhtml. unfold scrape_product. rewrite Hurl. simpl.
  by destruct (_ || _), Hhtml as [-> | ->].
Qed.






(** Where a result of [scrape_product] comes from: the structured
    data, or a positional strategy and the title extractor. *)
Lemma scrape_product_origin url html soup product_name :
  match scrape_product url html soup product_name with
  | Ok (Some d) =>
      _try_json_ld soup url = Ok (Some d) \/
      (_try_json_ld soup url = Ok None /\
       exists r, positional_result r /\ d = <["name" := JStr (_extract_title soup)]> r)
  | _ => True
  end.
Proof.
  destruct (urlparse url) as [parsed|e] eqn:Hurl;
    [|by unfold scrape_product; rewrite Hurl].
  destruct (decide (scheme parsed ∈ [py "http"; py "https"] /\ netloc parsed <> []))
    as [[Hs Hn]|Hbad].
  - destruct html as [[|c html]|];
      [by rewrite (scrape_product_no_page _ _ _ soup product_name Hurl) by (by right)|
      |by rewrite (scrape_product_no_page _ _ _ soup product_name Hurl) by (by left)].
    rewrite (scrape_product_strategies _ _ _ _ _ _ Hurl Hs Hn).
    destruct (_try_json_ld soup url) as [[d|]|e]; [by left| |done].
    pose proof (_try_selectors_positional soup (resolve_anchor soup product_name)) as Hsel.
    destruct (_try_selectors _ _) as [r|]; [right; by eauto|].
    pose proof (_try_proximity_sweep_positional soup (resolve_anchor soup product_name))
      as Hsweep.
    destruct (_try_proximity_sweep _ _) as [r|]; [right; by eauto|done].
  - rewrite (scrape_product_guard _ _ html soup product_name Hurl); [done|].
    apply not_and_l in Hbad as [?|Hn]; [by left|right].
    by destruct (decide (netloc parsed = [])).
Qed.

Lemma scrape_product_shape url html soup product_name :
  match scrape_product url html soup product_name with
  | Ok (Some d) =>
      exists name price currency,
        d = {[ "name" := name; "price" := JFloat price; "currency" := currency ]} /\
        (name = JNull \/ exists s, name = JStr s)
  | _ => True
  end.
Proof.
  pose proof (scrape_product_origin url html soup product_name) as Horigin.
  destruct (scrape_product _ _ _ _) as [[d|]|e]; [|done..].
  destruct Horigin as [Hld|(_ & r & (m & e & currency & -> & _) & ->)].
  - pose proof (_try_json_ld_shape soup url) as Hshape. rewrite Hld in Hshape.
    destruct Hshape as (name & price & currency & -> & [->|[s ->]]);
      eexists _, _, _; (split; [done|]); [by left|right; by eexists].
  - eexists _, _, _. split; [done|]. right. by eexists.
Qed.

Lemma scrape_product_fallback url html soup product_name :
  match _try_json_ld soup url, scrape_product url html soup product_name with
  | Ok None, Ok (Some d) =>
      exists m e currency,
        d = {[ "name" := JStr (_extract_title soup);
               "price" := JFloat (Finite m e);
               "currency" := JStr currency ]} /\
        (0 < m)%Z /\ currency ∈ currency_codes
  | _, _ => True
  end.
Proof.
  pose proof (scrape_product_origin url html soup product_name) as Horigin.
  destruct (_try_json_ld soup url) as [[d0|]|e0]; [done| |done].
  destruct (scrape_product _ _ _ _) as [[d|]|e]; [|done..].
  destruct Horigin as [?|(_ & r & (m & e & currency & -> & ? & ?) & ->)]; [done|].
  by exists m, e, currency.
Qed.

(** X17. Every dict [scrape_product] returns has the three keys
    name, price and currency, with a float as the price and [None] or
    a text as the name: the handlers can read [product["name"]],
    [product["price"]] and [product["currency"]] of any result. *)
Theorem X17_scrape_product_result_shape url html soup product_name :
  match scrape_product url html soup product_name with
  | Ok (Some d) =>
      exists name price currency,
        d = {[ "name" := name; "price" := JFloat price; "currency" := currency ]} /\
        (name = JNull \/ exists s, name = JStr s)
  | _ => True
  end.
Proof. apply scrape_product_shape. Qed.

(** X18. When the structured data of the page gives a product,
    [scrape_product] returns that product or [None], and the same for
    every product-name hint: the hint plays no part. *)
Theorem X18_structured_data_ignores_hint url html soup :
  match _try_json_ld soup url with
  | Ok (Some d) =>
      exists result,
        (result = None \/ result = Some d) /\
        forall product_name, scrape_product url html soup product_name = Ok result
  | _ => True
  end.
Proof.
  destruct (_try_json_ld soup url) as [[d|]|e] eqn:Htry; [|done..].
  assert (Hurl : exists parsed, urlparse url = Ok parsed).
  { destruct (urlparse url) as [parsed|e] eqn:Hurl; [by eexists|].
    assert (Hraise : _try_json_ld soup url = Raise e); [|congruence].
    unfold _try_json_ld, request_path. destruct url; [done|]. by rewrite Hurl. }
  destruct Hurl as [parsed Hurl].
  destruct (decide (scheme parsed ∈ [py "http"; py "https"] /\ netloc parsed <> []))
    as [[Hs Hn]|Hbad].
  - destruct html as [[|c html]|].
    + exists None. split; [by left|]. intros product_name.
      apply (scrape_product_no_page _ _ _ soup product_name Hurl). by right.
    + exists (Some d). split; [by right|]. intros product_name.
      by rewrite (scrape_product_strategies _ _ _ _ _ _ Hurl Hs Hn), Htry.
    + exists None. split; [by left|]. intros product_name.
      apply (scrape_product_no_page _ _ _ soup product_name Hurl). by left.
  - exists None. split; [by left|]. intros product_name.
    apply (scrape_product_guard _ _ html soup product_name Hurl).
    apply not_and_l in Hbad as [?|Hn]; [by left|right].
    by destruct (decide (netloc parsed = [])).
Qed.


(* ================================================================== *)
(** ** Properties: email_utils.py *)
(* ================================================================== *)

Lemma replace_char_app old new a b :
  replace_char old new (a ++ b) = replace_char old new a ++ replace_char old new b.
Proof. unfold replace_char. apply flat_map_app. Qed.

Lemma _esc_app a b : _esc (a ++ b) = _esc a ++ _esc b.
Proof. unfold _esc. by rewrite !replace_char_app. Qed.

Lemma _esc_char c :
  _esc [c] =
    if c =? 38 then py "&amp;"
    else if c =? 60 then py "&lt;"
    else if c =? 62 then py "&gt;"
    else if c =? 34 then py "&quot;"
    else [c].
Proof.
  destruct (N.eqb_spec c 38) as [->|H38]; [reflexivity|].
  destruct (N.eqb_spec c 60) as [->|H60]; [reflexivity|].
  destruct (N.eqb_spec c 62) as [->|H62]; [reflexivity|].
  destruct (N.eqb_spec c 34) as [->|H34]; [reflexivity|].
  unfold _esc, replace_char. simpl.
  rewrite (proj2 (N.eqb_neq c 38)) by done. simpl.
  rewrite (proj2 (N.eqb_neq c 60)) by done. simpl.
  rewrite (proj2 (N.eqb_neq c 62)) by done. simpl.
  by rewrite (proj2 (N.eqb_neq c 34)) by done.
Qed.

Lemma _esc_cons c text : _esc (c :: text) = _esc [c] ++ _esc text.
Proof. apply (_esc_app [c] text). Qed.

Lemma _esc_no_markup text : Forall (fun c => ~ markup_char c) (_esc text).
Proof.
  induction text as [|c text IH]; [by constructor|].
  rewrite _esc_cons. apply Forall_app. split; [|done].
  rewrite _esc_char. unfold markup_char.
  destruct (N.eqb_spec c 38) as [->|H38];
    [repeat apply Forall_cons_2; try apply Forall_nil_2; intros [?|[?|?]]; done|].
  destruct (N.eqb_spec c 60) as [->|H60];
    [repeat apply Forall_cons_2; try apply Forall_nil_2; intros [?|[?|?]]; done|].
  destruct (N.eqb_spec c 62) as [->|H62];
    [repeat apply Forall_cons_2; try apply Forall_nil_2; intros [?|[?|?]]; done|].
  destruct (N.eqb_spec c 34) as [->|H34];
    [repeat apply Forall_cons_2; try apply Forall_nil_2; intros [?|[?|?]]; done|].
  apply Forall_singleton. intros [?|[?|?]]; done.
Qed.

Lemma count_char_app x a b :
  count_char x (a ++ b) = (count_char x a + count_char x b)%nat.
Proof. unfold count_char, pystr. by rewrite filter_app, length_app. Qed.

Lemma count_char_absent x s : Forall (fun c => c <> x) s -> count_char x s = 0%nat.
Proof.
  unfold count_char, pystr. induction 1 as [|c s Hc Hs IH]; [done|].
  by rewrite filter_cons_False.
Qed.

Lemma count_markup_esc x text : markup_char x -> count_char x (_esc text) = 0%nat.
Proof.
  intros Hx. apply count_char_absent.
  eapply Forall_impl; [apply _esc_no_markup|]. intros c Hc ->. done.
Qed.

(** X20. [_esc] works character by character: the ampersand, the
    angle brackets and the double quote become their entities and
    every other character stays; the ampersand of an entity written
    for a bracket or a quote is not escaped again. *)
Theorem X20_esc_characterwise text :
  _esc text =
    flat_map (fun c => if c =? 38 then py "&amp;"
                       else if c =? 60 then py "&lt;"
                       else if c =? 62 then py "&gt;"
                       else if c =? 34 then py "&quot;"
                       else [c]) text.
Proof.
  induction text as [|c text IH]; [done|].
  by rewrite _esc_cons, _esc_char, IH.
Qed.

(** X21. The text [_esc] returns has no angle bracket and no double
    quote. *)
Theorem X21_esc_no_markup text :
  Forall (fun c => c <> 60 /\ c <> 62 /\ c <> 34) (_esc text).
Proof.
  eapply Forall_impl; [apply _esc_no_markup|].
  unfold markup_char. intros c Hc. split_and!; intros ->; apply Hc; auto.
Qed.

(** X22. [_esc] loses nothing: reading the four entities back gives
    the text it was given, so two different texts are never escaped to
    the same text. *)
Theorem X22_esc_round_trip text : unescape (_esc text) = text.
Proof.
  induction text as [|c text IH]; [done|].
  rewrite _esc_cons, _esc_char.
  destruct (N.eqb_spec c 38) as [->|H38]; [simpl; by rewrite IH|].
  destruct (N.eqb_spec c 60) as [->|H60]; [simpl; by rewrite IH|].
  destruct (N.eqb_spec c 62) as [->|H62]; [simpl; by rewrite IH|].
  destruct (N.eqb_spec c 34) as [->|H34]; [simpl; by rewrite IH|].
  cbn [app unescape]. rewrite (proj2 (N.eqb_neq c 38)) by done. by rewrite IH.
Qed.

(** X23. The product name cannot add markup to the unsubscribe
    page: whatever the name, the page has as many opening brackets,
    closing brackets and double quotes as the page for the name "x". *)
Theorem X23_unsubscribe_page_markup (c : pychar) (name : pystr) :
  let page := build_unsubscribe_page (Some (c :: name)) in
  let plain := build_unsubscribe_page (Some (py "x")) in
  count_char 60 page = count_char 60 plain /\
  count_char 62 page = count_char 62 plain /\
  count_char 34 page = count_char 34 plain.
Proof.
  cbv zeta. unfold build_unsubscribe_page, _BASE_HTML.
  change (py "x") with [120].
  rewrite !count_char_app, !count_markup_esc by (unfold markup_char; auto).
  done.
Qed.

(* ================================================================== *)
(** ** Properties: the checks of the subscribe handler *)
(* ================================================================== *)

Lemma plus_loop_spec p k s :
  plus_loop p k s = true <->
  exists pre rest, s = pre ++ rest /\ pre <> [] /\
                   Forall (fun c => p c = true) pre /\ k rest = true.
Proof.
  induction s as [|c s IH]; simpl.
  - split; [done|]. intros (pre & rest & Hs & Hpre & _).
    by destruct pre.
  - destruct (p c) eqn:Hc.
    + split.
      * destruct (plus_loop p k s) eqn:Hloop.
        -- intros _. destruct IH as [IH _].
           destruct (IH eq_refl) as (pre & rest & -> & _ & Hpre & Hk).
           exists (c :: pre), rest. split_and!; [done|done|by constructor|done].
        -- intros Hk. exists [c], s. split_and!; [done|done|by repeat constructor|done].
      * intros (pre & rest & Hs & Hne & Hpre & Hk).
        destruct pre as [|c' pre]; [done|]. injection Hs as <- ->.
        destruct pre as [|c'' pre].
        -- simpl. rewrite Hk. by destruct (plus_loop p k rest).
        -- apply Forall_cons in Hpre as [_ Hpre].
           rewrite (proj2 IH); [done|]. exists (c'' :: pre), rest. done.
    + split; [done|]. intros (pre & rest & Hs & Hne & Hpre & _).
      destruct pre as [|c' pre]; [done|]. injection Hs as <- ->.
      apply Forall_cons in Hpre as [? _]. congruence.
Qed.

Lemma cset_spec x (k : pystr -> bool) s :
  cmatch (CSet (N.eqb x)) s k = true <-> exists s', s = x :: s' /\ k s' = true.
Proof.
  simpl. destruct s as [|c s]; [split; [done|by intros (? & ? & _)]|].
  destruct (N.eqb_spec x c) as [->|Hne].
  - split; [by exists s|]. by intros (s' & [= ->] & ?).
  - split; [done|]. by intros (s' & [= ->] & ?).
Qed.

Lemma at_end_spec s : at_end s = true <-> s = [] \/ s = [10].
Proof.
  destruct s as [|c [|c' s]]; simpl.
  - split; [by left|done].
  - rewrite N.eqb_eq. split; [intros ->; by right|by intros [?|[= ->]]].
  - split; [done|by intros [?|?]].
Qed.

Lemma email_match_spec email :
  email_match email = true <->
  exists a b c tail,
    email = a ++ 64 :: b ++ 46 :: c ++ tail /\
    a <> [] /\ b <> [] /\ c <> [] /\
    Forall (fun x => email_char x = true) (a ++ b ++ c) /\
    (tail = [] \/ tail = [10]).
Proof.
  unfold email_match, _EMAIL_RE. cbn [cmatch]. rewrite plus_loop_spec. split.
  - intros (a & r1 & -> & Ha & Hfa & Hm).
    apply (cset_spec 64) in Hm as (r2 & -> & Hm).
    apply plus_loop_spec in Hm as (b & r3 & -> & Hb & Hfb & Hm).
    apply (cset_spec 46) in Hm as (r4 & -> & Hm).
    apply plus_loop_spec in Hm as (c & tail & -> & Hc & Hfc & Hm).
    apply at_end_spec in Hm.
    exists a, b, c, tail. split_and!; try done.
    by rewrite !Forall_app.
  - intros (a & b & c & tail & -> & Ha & Hb & Hc & Hf & Htail).
    apply Forall_app in Hf as [Hfa Hf]. apply Forall_app in Hf as [Hfb Hfc].
    exists a, (64 :: b ++ 46 :: c ++ tail). split_and!; [done|done|done|].
    cbn [N.eqb Pos.eqb].
    apply plus_loop_spec. exists b, (46 :: c ++ tail). split_and!; [done|done|done|].
    cbn [N.eqb Pos.eqb].
    apply plus_loop_spec. exists c, tail. split_and!; [done|done|done|].
    by apply at_end_spec.
Qed.

(** X24. The e-mail pattern of the subscribe handler accepts exactly
    the texts made of a part, an at sign, a part, a dot and a part,
    where the three parts are not empty and have neither an at sign
    nor white space, optionally followed by one final newline. *)
Theorem X24_email_pattern email :
  email_match email = true <->
  exists a b c tail,
    email = a ++ 64 :: b ++ 46 :: c ++ tail /\
    a <> [] /\ b <> [] /\ c <> [] /\
    Forall (fun x => x <> 64 /\ isspace x = false) (a ++ b ++ c) /\
    (tail = [] \/ tail = [10]).
Proof.
  rewrite email_match_spec.
  assert (Hchar : forall l, Forall (fun x => email_char x = true) l <->
                            Forall (fun x => x <> 64 /\ isspace x = false) l).
  { intros l. apply Forall_proper; [|done]. intros x. unfold email_char.
    rewrite andb_true_iff, !negb_true_iff, N.eqb_neq. done. }
  by setoid_rewrite Hchar.
Qed.

Lemma startswith_prefix p s : startswith p s = true -> exists r, s = p ++ r.
Proof.
  revert s. induction p as [|x p IH]; intros s; simpl; [by exists s|].
  destruct s as [|c s]; [done|].
  intros [->%N.eqb_eq Hs]%andb_true_iff. destruct (IH _ Hs) as [r ->]. by exists r.
Qed.

Lemma urlparse_scheme_http rest parsed :
  urlparse (py "http://" ++ rest) = Ok parsed -> scheme parsed = py "http".
Proof.
  unfold urlparse.
  change (py "http://" ++ rest) with (104 :: 116 :: 116 :: 112 :: 58 :: 47 :: 47 :: rest).
  change (lstrip_c0 (104 :: 116 :: 116 :: 112 :: 58 :: 47 :: 47 :: rest))
    with (104 :: 116 :: 116 :: 112 :: 58 :: 47 :: 47 :: rest).
  unfold pystr, pychar.
  rewrite !filter_cons_True by (split_and!; done).
  match goal with
  | |- context [@filter ?A ?B ?I ?P ?H rest] =>
      generalize (@filter A B I P H rest); intros F
  end.
  assert (H1 : span_until (N.eqb 58) (104 :: 116 :: 116 :: 112 :: 58 :: 47 :: 47 :: F)
               = (py "http", 58 :: 47 :: 47 :: F)) by reflexivity.
  rewrite H1. cbv beta iota.
  change (is_ascii_alpha 104 && forallb scheme_char (py "http")) with true.
  cbv beta iota.
  change (startswith (py "//") (47 :: 47 :: F)) with true.
  cbv beta iota. change (drop 2 (47 :: 47 :: F)) with F.
  match goal with
  | |- context [span_until ?p F] => destruct (span_until p F) as [net rest0]
  end.
  destruct (xorb _ _); [done|]. unfold mbind, exc_bind. cbv beta iota.
  by intros [= <-].
Qed.

Lemma urlparse_scheme_https rest parsed :
  urlparse (py "https://" ++ rest) = Ok parsed -> scheme parsed = py "https".
Proof.
  unfold urlparse.
  change (py "https://" ++ rest) with (104 :: 116 :: 116 :: 112 :: 115 :: 58 :: 47 :: 47 :: rest).
  change (lstrip_c0 (104 :: 116 :: 116 :: 112 :: 115 :: 58 :: 47 :: 47 :: rest))
    with (104 :: 116 :: 116 :: 112 :: 115 :: 58 :: 47 :: 47 :: rest).
  unfold pystr, pychar.
  rewrite !filter_cons_True by (split_and!; done).
  match goal with
  | |- context [@filter ?A ?B ?I ?P ?H rest] =>
      generalize (@filter A B I P H rest); intros F
  end.
  assert (H1 : span_until (N.eqb 58) (104 :: 116 :: 116 :: 112 :: 115 :: 58 :: 47 :: 47 :: F)
               = (py "https", 58 :: 47 :: 47 :: F)) by reflexivity.
  rewrite H1. cbv beta iota.
  change (is_ascii_alpha 104 && forallb scheme_char (py "https")) with true.
  cbv beta iota.
  change (startswith (py "//") (47 :: 47 :: F)) with true.
  cbv beta iota. change (drop 2 (47 :: 47 :: F)) with F.
  match goal with
  | |- context [span_until ?p F] => destruct (span_until p F) as [net rest0]
  end.
  destruct (xorb _ _); [done|]. unfold mbind, exc_bind. cbv beta iota.
  by intros [= <-].
Qed.

Lemma isspace_lower_char c : isspace c = false -> isspace (lower_char c) = false.
Proof.
  intros Hc. unfold lower_char.
  destruct ((65 <=? c) && (c <=? 90)) eqn:H1.
  { apply andb_true_iff in H1 as [?%N.leb_le ?%N.leb_le]. simpl.
    apply isspace_false; lia. }
  destruct ((192 <=? c) && (c <=? 222) && negb (c =? 215)) eqn:H2; [|done].
  apply andb_true_iff in H2 as [[?%N.leb_le ?%N.leb_le]%andb_true_iff _]. simpl.
  apply isspace_false; lia.
Qed.

Lemma lower_stripped s : stripped s -> stripped (lower s).
Proof.
  unfold stripped, lower. rewrite <-map_rev. intros [Hl Hr]. split.
  - destruct s as [|c s]; [done|]. by apply isspace_lower_char.
  - destruct (rev s) as [|c r]; [done|]. by apply isspace_lower_char.
Qed.

Lemma text_field_stripped body key s :
  text_field body key = Ok s -> stripped s.
Proof.
  unfold text_field. destruct (get body key) as [v|]; simpl; [|done].
  destruct (py_or v (JStr [])); try done.
  intros [= <-]. apply strip_stripped.
Qed.

Lemma stripped_no_newline l : ~ stripped (l ++ [10]).
Proof. unfold stripped. rewrite rev_unit. by intros [_ ?]. Qed.

(** X25. A request the subscribe handler accepts has a URL that
    starts with http:// or https://, for which the scheme test of
    [scrape_product] cannot fail, and an e-mail address with exactly
    the shape of the pattern and no final newline; the base URL is the
    one read from the event. *)
Theorem X25_subscribe_accepted event url email product_name api_base :
  lambda_handler_checks event = Ok (Accepted url email product_name api_base) ->
  (startswith (py "http://") url = true \/ startswith (py "https://") url = true) /\
  match urlparse url with
  | Ok parsed => scheme parsed ∈ [py "http"; py "https"]
  | Raise _ => True
  end /\
  (exists a b c,
     email = a ++ 64 :: b ++ 46 :: c /\ a <> [] /\ b <> [] /\ c <> [] /\
     Forall (fun x => x <> 64 /\ isspace x = false) (a ++ b ++ c)) /\
  api_base = _get_api_base_url event.
Proof.
  unfold lambda_handler_checks.
  destruct (bool_decide _); [done|].
  destruct (json_loads _) as [body|[]]; try done.
  destruct (text_field body (py "url")) as [url'|]; cbn [mbind exc_bind negb]; [|done].
  destruct (text_field body (py "email")) as [email'|] eqn:Hemail; cbn [mbind exc_bind negb]; [|done].
  destruct (text_field body (py "productName")) as [name'|]; cbn [mbind exc_bind negb]; [|done].
  destruct (_ || _); [done|].
  destruct (startswith (py "http://") url' || startswith (py "https://") url') eqn:Hurl;
    cbn [mbind exc_bind negb]; [|done].
  destruct (email_match (lower email')) eqn:Hmatch; cbn [mbind exc_bind negb]; [|done].
  intros [= <- <- <- <-].
  apply orb_true_iff in Hurl. split_and!; [done| | |done].
  - destruct (urlparse url') as [parsed|] eqn:Hparse; [|done].
    destruct Hurl as [[r ->]%startswith_prefix|[r ->]%startswith_prefix].
    + apply urlparse_scheme_http in Hparse as ->. by left.
    + apply urlparse_scheme_https in Hparse as ->. right. by left.
  - apply email_match_spec in Hmatch
      as (a & b & c & tail & Heq & Ha & Hb & Hc & Hall & [->| ->]).
    + exists a, b, c. rewrite app_nil_r in Heq. split_and!; try done.
      eapply Forall_impl; [exact Hall|]. intros x. unfold email_char.
      rewrite andb_true_iff, !negb_true_iff, N.eqb_neq. done.
    + exfalso. apply (stripped_no_newline (a ++ 64 :: b ++ 46 :: c)).
      replace ((a ++ 64 :: b ++ 46 :: c) ++ [10]) with (lower email').
      * by eapply lower_stripped, text_field_stripped.
      * rewrite Heq, <-!(assoc_L (++)). simpl. by rewrite <-!(assoc_L (++)).
Qed.

Lemma X25_subscribe_accepted_witness :
  let event :=
    ApiEvent (Some (py "POST"))
      (Some (json_text
         "{'url': ' https://x/widget ', 'email': ' Ann@Example.COM ', 'productName': 'Widget'}"))
      (Some (py "api.example")) None in
  lambda_handler_checks event
  = Ok (Accepted (py "https://x/widget") (py "ann@example.com") (py "Widget")
          (py "https://api.example/Prod")) /\
  match urlparse (py "https://x/widget") with
  | Ok parsed => scheme parsed ∈ [py "http"; py "https"]
  | Raise _ => True
  end.
Proof.
  intros event.
  assert (Hok : lambda_handler_checks event
                = Ok (Accepted (py "https://x/widget") (py "ann@example.com") (py "Widget")
                        (py "https://api.example/Prod"))) by (vm_compute; reflexivity).
  split; [exact Hok|].
  apply (X25_subscribe_accepted _ _ _ _ _ Hok).
Defined.




Lemma rstrip_char_snoc x s : rstrip_char x (s ++ [x]) = rstrip_char x s.
Proof.
  unfold rstrip_char. rewrite rev_unit. simpl. by rewrite N.eqb_refl.
Qed.

(** X27. The unsubscribe link ignores a slash at the end of the base
    URL. When the event has no domain name, or an empty one, the link
    is the relative URL "/unsubscribe?token=..."; with a domain name
    the base URL starts with https://. *)
Theorem X27_unsubscribe_url :
  (forall api_base token,
     _build_unsubscribe_url (api_base ++ [ch_slash]) token
     = _build_unsubscribe_url api_base token) /\
  (forall method body stage token,
     _build_unsubscribe_url (_get_api_base_url (ApiEvent method body None stage)) token
     = py "/unsubscribe?token=" ++ token /\
     _build_unsubscribe_url (_get_api_base_url (ApiEvent method body (Some []) stage)) token
     = py "/unsubscribe?token=" ++ token) /\
  (forall method body c domain stage,
     startswith (py "https://")
       (_get_api_base_url (ApiEvent method body (Some (c :: domain)) stage)) = true).
Proof.
  split_and!.
  - intros api_base token. unfold _build_unsubscribe_url. by rewrite rstrip_char_snoc.
  - done.
  - done.
Qed.

(* ================================================================== *)
(** ** Properties: the scheduled price check *)
(* ================================================================== *)

Lemma check_product_float stored_price name price currency :
  check_product stored_price
    (Some {[ "name" := name; "price" := JFloat price; "currency" := currency ]})
  = Some (if float_truthy price
          then Checked price (float_ltb price stored_price)
          else ScrapeFailed).
Proof.
  unfold check_product.
  rewrite bool_decide_eq_false_2 by apply insert_non_empty.
  rewrite lookup_insert_ne, lookup_insert_eq by done. simpl.
  by destruct (float_truthy price).
Qed.


(** X29. A product stored without a price (stored price 0) is never
    reported as a price drop when its price is then found by a
    positional strategy. *)
Theorem X29_stub_price_no_drop url html soup product_name :
  match _try_json_ld soup url, scrape_product url html soup product_name with
  | Ok None, Ok (Some d) =>
      exists price, check_product float_zero (Some d) = Some (Checked price false)
  | _, _ => True
  end.
Proof.
  pose proof (scrape_product_fallback url html soup product_name) as Hpos.
  destruct (_try_json_ld soup url) as [[d0|]|e0]; [done| |done].
  destruct (scrape_product _ _ _ _) as [[d|]|e]; [|done..].
  destruct Hpos as (m & e & currency & -> & Hm & _).
  exists (Finite m e). rewrite check_product_float.
  unfold float_truthy, float_ltb, float_zero. rewrite float_Q_sign_r.
  destruct m; try done; lia.
Qed.
